(** * The sales notebook [share.ipynb]: a shallow embedding and its properties

    The notebook builds one synthetic sales table (cell 3) and then runs a
    sequence of pandas queries, aggregations and charts over it.  The cells
    are numbered as in the notebook file, markdown cells included, so the
    generator is cell 3, the region summary cell 11, the monthly aggregation
    cell 13, and so on.

    Modelling choices, in one place:
    - Python [int]s are [Z]; [sales - cost] is exact.  An integer column
      holds the integers it was built from; the 64-bit width of pandas'
      storage is outside the model.
    - The float arithmetic of the generator (sine, the normal sampler, the
      truncation [int(...)]) belongs to numpy and libm; it is a parameter
      of the development, the record [NumPy].
    - The derived float columns (means, margins, growth rates, percentages)
      are modelled by the exact value they approximate: a reduced fraction,
      or one of the IEEE special values that a division by zero produces.
      Binary rounding is outside the model.
    - Cell 1 imports the libraries and sets the plot style; the model
      starts with the libraries loaded.
    - Notebook variables live in a state record; a cell is a computation in
      a state-and-exception monad, and an exception keeps the assignments
      made before it, as a Jupyter kernel does. *)

From Stdlib Require Import ZArith List String Ascii QArith Qround.
From Stdlib Require Import Lia Lqa Bool Permutation Sorted.
Import ListNotations.

Open Scope string_scope.
Open Scope list_scope.
Open Scope Z_scope.

(** ** Exceptions, and the state-and-exception monad of a cell *)

Inductive Exn : Type :=
| NameError (name : string)
| KeyError (key : string)
| ValueError (msg : string).

Inductive Err (A : Type) : Type :=
| OK (a : A)
| Raise (e : Exn).

Arguments OK {A} a.
Arguments Raise {A} e.

Definition M (S A : Type) : Type := S -> S * Err A.

Definition ret {S A} (a : A) : M S A := fun s => (s, OK a).

Definition bind {S A B} (c : M S A) (k : A -> M S B) : M S B :=
  fun s =>
    match c s with
    | (s', OK a) => k a s'
    | (s', Raise e) => (s', Raise e)
    end.

Definition raise {S A} (e : Exn) : M S A := fun s => (s, Raise e).
Definition modify {S} (f : S -> S) : M S unit := fun s => (f s, OK tt).

Notation "x <- c ;; k" := (bind c (fun x => k))
  (at level 61, c at next level, right associativity).
Notation "c ;;; k" := (bind c (fun _ => k))
  (at level 61, right associativity).

(** [for x in xs: body]. *)
Fixpoint for_each {S X} (xs : list X) (body : X -> M S unit) : M S unit :=
  match xs with
  | [] => ret tt
  | x :: rest => body x ;;; for_each rest body
  end.

(** Subscripting a dict whose keys are strings: [d[k]], a [KeyError] when
    the key is absent. *)
Fixpoint dict_get {V} (d : list (string * V)) (k : string) : Err V :=
  match d with
  | [] => Raise (KeyError k)
  | (k', v) :: rest => if String.eqb k' k then OK v else dict_get rest k
  end.

Definition lift_err {S A} (r : Err A) : M S A := fun s => (s, r).

(** ** Values of the derived float columns

    A finite value is kept as a reduced fraction, so that equal values are
    equal terms; the three special values are what numpy's float division
    yields when the divisor is zero.  Every operation reduces its result.
    The divisors of the notebook are converted integers, whose zero is the
    positive zero, so the sign of a quotient by zero is the sign of the
    numerator. *)

Inductive fval : Type :=
| Fin (q : Q)
| PInf
| NInf
| NaN.

(** ** What the notebook takes from numpy

    [float] is the type of binary64 values with the operations the generator
    uses; [RandomState] is the state of numpy's global generator,
    [random_seed] what [np.random.seed] sets it to, and [random_normal] one
    call of [np.random.normal], which returns a sample and advances the
    state.  [describe] and [pearson] stand for two pandas statistics whose
    formulas are outside the model, [DataFrame.describe] and the pairwise
    coefficient of [DataFrame.corr]; their results are values of float
    columns, the type [fval] above.  [int_trunc] is [int(...)] on the
    finite values the generator computes. *)

Record NumPy : Type := {
  float : Type;
  of_int : Z -> float;
  lit : Q -> float;
  fadd : float -> float -> float;
  fmul : float -> float -> float;
  fdiv : float -> float -> float;
  np_sin : float -> float;
  np_pi : float;
  int_trunc : float -> Z;
  RandomState : Type;
  random_seed : Z -> RandomState;
  random_normal : float -> float -> RandomState -> float * RandomState;
  describe : list (list Z) -> list (list fval);
  pearson : list Z -> list Z -> fval
}.

(** ** Timestamps and the month-end date range *)

Record Timestamp : Type := { year : Z; month : Z; day : Z }.

Definition is_leap (y : Z) : bool :=
  ((y mod 4 =? 0) && negb (y mod 100 =? 0)) || (y mod 400 =? 0).

Definition days_in_month (y m : Z) : Z :=
  if m =? 2 then (if is_leap y then 29 else 28)
  else if (m =? 4) || (m =? 6) || (m =? 9) || (m =? 11) then 30
  else 31.

Definition month_end (y m : Z) : Timestamp :=
  {| year := y; month := m; day := days_in_month y m |}.

Fixpoint month_ends (periods : nat) (y m : Z) : list Timestamp :=
  match periods with
  | O => []
  | S n =>
      month_end y m ::
      (if m =? 12 then month_ends n (y + 1) 1 else month_ends n y (m + 1))
  end.

(** [pd.date_range(start=..., periods=..., freq='M')]: the month ends, from
    the first one on or after [start]. *)
Definition date_range_M (start : Timestamp) (periods : nat) : list Timestamp :=
  month_ends periods (year start) (month start).

Definition ts_eqb (a b : Timestamp) : bool :=
  (year a =? year b) && (month a =? month b) && (day a =? day b).

(** Dates order by year, month, day. *)
Definition ts_leb (a b : Timestamp) : bool :=
  (year a <? year b)
  || ((year a =? year b)
      && ((month a <? month b)
          || ((month a =? month b) && (day a <=? day b)))).

Definition digit (n : Z) : string :=
  String (ascii_of_nat (48 + Z.to_nat (n mod 10))) EmptyString.

(** [strftime('%Y-%m')]: a four-digit year, a dash, a two-digit month. *)
Definition strftime_Ym (t : Timestamp) : string :=
  (digit (year t / 1000) ++ digit (year t / 100) ++ digit (year t / 10)
   ++ digit (year t) ++ "-" ++ digit (month t / 10) ++ digit (month t))%string.

(** ** Rows and frames *)

Record Row : Type := {
  date : Timestamp;
  region : string;
  product : string;
  sales : Z;
  cost : Z;
  profit : Z
}.

(** A frame is its rows and at most one column added after creation; the
    added column is stored as pandas stores it, one value per row. *)
Record Frame (R E : Type) : Type := {
  body : list R;
  extra : option (list E)
}.

Arguments body {R E} f.
Arguments extra {R E} f.

(** [df]: six columns, and the ['month'] column once it has been added. *)
Definition DataFrame : Type := Frame Row string.

Definition base_columns : list string :=
  ["date"; "region"; "product"; "sales"; "cost"; "profit"].

Definition columns (d : DataFrame) : list string :=
  match extra d with
  | Some _ => base_columns ++ ["month"]
  | None => base_columns
  end.

(** ** Cell 3: the generator *)

Definition regions : list string := ["North"; "South"; "East"; "West"].
Definition products : list string := ["Product A"; "Product B"; "Product C"].
Definition start_date : Timestamp := {| year := 2023; month := 1; day := 1 |}.
Definition months : list Timestamp := date_range_M start_date 12.

Definition base_sales : list (string * list (string * Z)) :=
  [ ("North", [("Product A", 100); ("Product B", 150); ("Product C", 80)]);
    ("South", [("Product A", 120); ("Product B", 90); ("Product C", 110)]);
    ("East", [("Product A", 80); ("Product B", 120); ("Product C", 140)]);
    ("West", [("Product A", 150); ("Product B", 100); ("Product C", 90)]) ].

Section Generator.

Variable np : NumPy.

(** The state the loop works on: numpy's generator and the list [data]. *)
Record GenState : Type := { rs : RandomState np; data : list Row }.

Definition normal (mu sigma : float np) : M GenState (float np) :=
  fun s =>
    let (x, r) := random_normal np mu sigma (rs s) in
    ({| rs := r; data := data s |}, OK x).

Definition append (r : Row) : M GenState unit :=
  modify (fun s => {| rs := rs s; data := data s ++ [r] |}).

(** [1 + 0.2 * np.sin(month.month / 12 * 2 * np.pi)] *)
Definition month_factor (m : Timestamp) : float np :=
  fadd np (of_int np 1)
    (fmul np (lit np (2 # 10))
       (np_sin np
          (fmul np
             (fmul np (fdiv np (of_int np (month m)) (of_int np 12))
                (of_int np 2))
             (np_pi np)))).

(** The body of the innermost loop. *)
Definition gen_row (r p : string) (m : Timestamp) : M GenState unit :=
  let mf := month_factor m in
  noise <- normal (of_int np 1) (lit np (15 # 100)) ;;
  by_product <- lift_err (dict_get base_sales r) ;;
  base <- lift_err (dict_get by_product p) ;;
  let sales := int_trunc np (fmul np (fmul np (of_int np base) mf) noise) in
  eps <- normal (of_int np 0) (lit np (5 # 100)) ;;
  let cost :=
    int_trunc np (fmul np (of_int np sales) (fadd np (lit np (6 # 10)) eps)) in
  append {| date := m; region := r; product := p;
            sales := sales; cost := cost; profit := sales - cost |}.

Definition gen_loop : M GenState unit :=
  for_each regions (fun r =>
    for_each products (fun p =>
      for_each months (fun m => gen_row r p m))).

End Generator.

(** ** Arithmetic on the values of float columns *)

Definition of_Z (z : Z) : fval := Fin (inject_Z z).

Definition signed_inf (q : Q) : fval :=
  match Qcompare q 0 with
  | Gt => PInf
  | Lt => NInf
  | Eq => NaN
  end.

Definition fneg (a : fval) : fval :=
  match a with
  | Fin q => Fin (Qred (- q))
  | PInf => NInf
  | NInf => PInf
  | NaN => NaN
  end.

Definition fplus (a b : fval) : fval :=
  match a, b with
  | Fin x, Fin y => Fin (Qred (x + y))
  | NaN, _ | _, NaN => NaN
  | PInf, NInf | NInf, PInf => NaN
  | PInf, _ | _, PInf => PInf
  | NInf, _ | _, NInf => NInf
  end.

Definition fminus (a b : fval) : fval := fplus a (fneg b).

Definition ftimes (a b : fval) : fval :=
  match a, b with
  | Fin x, Fin y => Fin (Qred (x * y))
  | NaN, _ | _, NaN => NaN
  | Fin x, PInf | PInf, Fin x => signed_inf x
  | Fin x, NInf | NInf, Fin x => signed_inf (- x)
  | PInf, PInf | NInf, NInf => PInf
  | PInf, NInf | NInf, PInf => NInf
  end.

Definition fquot (a b : fval) : fval :=
  match a, b with
  | Fin x, Fin y => if Qeq_bool y 0 then signed_inf x else Fin (Qred (x / y))
  | NaN, _ | _, NaN => NaN
  | Fin _, _ => Fin 0
  | PInf, Fin y => match Qcompare y 0 with Lt => NInf | _ => PInf end
  | NInf, Fin y => match Qcompare y 0 with Lt => PInf | _ => NInf end
  | _, _ => NaN
  end.

Definition is_nan (a : fval) : bool :=
  match a with NaN => true | _ => false end.

(** Round half to even, as [numpy.rint]. *)
Definition rint (q : Q) : Z :=
  let f := Qfloor q in
  match Qcompare (q - inject_Z f) (1 # 2) with
  | Lt => f
  | Gt => f + 1
  | Eq => if Z.even f then f else f + 1
  end.

(** [.round(2)] *)
Definition round2 (a : fval) : fval :=
  match a with
  | Fin q => Fin (Qred (inject_Z (rint (q * 100)) / 100))
  | _ => a
  end.

(** The order [sort_values] uses on a float column, ascending; a NaN goes
    last whatever the direction, which the callers handle. *)
Definition fval_leb (a b : fval) : bool :=
  match a, b with
  | NInf, _ => true
  | _, PInf => true
  | Fin x, Fin y => Qle_bool x y
  | _, _ => false
  end.

Definition sumZ {A} (f : A -> Z) (l : list A) : Z :=
  fold_right (fun a acc => f a + acc) 0 l.

(** The mean of an integer column: the sum over the count. *)
Definition mean {A} (f : A -> Z) (l : list A) : fval :=
  fquot (of_Z (sumZ f l)) (of_Z (Z.of_nat (List.length l))).

(** ** Keys, sorting and group-by *)

Class Key (K : Type) : Type := {
  keqb : K -> K -> bool;
  kleb : K -> K -> bool;
  keqb_eq : forall a b, keqb a b = true <-> a = b
}.

#[export] Instance string_key : Key string :=
  {| keqb := String.eqb; kleb := String.leb; keqb_eq := String.eqb_eq |}.

Lemma pair_eqb_eq {K1 K2} `{Key K1} `{Key K2} (a b : K1 * K2) :
  keqb (fst a) (fst b) && keqb (snd a) (snd b) = true <-> a = b.
Proof.
  destruct a as [a1 a2], b as [b1 b2]; simpl.
  rewrite andb_true_iff, !keqb_eq.
  split; [intros [-> ->]; reflexivity | intros E; inversion E; auto].
Qed.

(** A pair of keys, in lexicographic order. *)
#[export] Instance pair_key {K1 K2} `{Key K1} `{Key K2} : Key (K1 * K2) :=
  {| keqb := fun a b => keqb (fst a) (fst b) && keqb (snd a) (snd b);
     kleb := fun a b =>
       if keqb (fst a) (fst b) then kleb (snd a) (snd b)
       else kleb (fst a) (fst b);
     keqb_eq := pair_eqb_eq |}.

Section Sorting.

Context {A : Type}.
Variable leb : A -> A -> bool.

Fixpoint insert_by (x : A) (l : list A) : list A :=
  match l with
  | [] => [x]
  | h :: t => if leb x h then x :: l else h :: insert_by x t
  end.

(** A stable sort. *)
Definition sort_by (l : list A) : list A := fold_right insert_by [] l.

End Sorting.

Section GroupBy.

Context {A K : Type} `{Key K}.
Variable key : A -> K.

(** One row joins the group of its key; a new key opens a new group. *)
Fixpoint add_to_group (a : A) (gs : list (K * list A)) : list (K * list A) :=
  match gs with
  | [] => [(key a, [a])]
  | (k, g) :: rest =>
      if keqb (key a) k then (k, g ++ [a]) :: rest
      else (k, g) :: add_to_group a rest
  end.

(** The groups in order of first appearance, each in row order. *)
Definition collect (l : list A) : list (K * list A) :=
  fold_left (fun gs a => add_to_group a gs) l [].

(** [groupby(key)], with pandas' default [sort=True]. *)
Definition groupby (l : list A) : list (K * list A) :=
  sort_by (fun g1 g2 => kleb (fst g1) (fst g2)) (collect l).

End GroupBy.

(** The distinct values of a column, sorted. *)
Definition unique_sorted {K} `{Key K} (ks : list K) : list K :=
  map fst (groupby (fun k => k) ks).

Fixpoint assoc {K V} `{Key K} (k : K) (l : list (K * V)) : option V :=
  match l with
  | [] => None
  | (k', v) :: rest => if keqb k k' then Some v else assoc k rest
  end.

(** ** Operations on frames *)

(** Boolean-mask selection [f[mask]]: the rows that pass, with their values
    of the added column. *)
Definition frame_filter {R E} (p : R -> bool) (f : Frame R E) : Frame R E :=
  {| body := filter p (body f);
     extra :=
       option_map
         (fun col => map snd (filter (fun re => p (fst re)) (combine (body f) col)))
         (extra f) |}.

(** [f.head(n)] *)
Definition frame_head {R E} (n : nat) (f : Frame R E) : Frame R E :=
  {| body := firstn n (body f); extra := option_map (firstn n) (extra f) |}.

(** [f[name] = col]: the added column is set, or replaced. *)
Definition set_extra {R E} (col : list E) (f : Frame R E) : Frame R E :=
  {| body := body f; extra := Some col |}.

(** The rows paired with the added column; a [KeyError] when the frame
    has no such column. *)
Definition with_extra {R E} (name : string) (f : Frame R E) : Err (list (R * E)) :=
  match extra f with
  | Some col => OK (combine (body f) col)
  | None => Raise (KeyError name)
  end.

(** Descending order on a float column, NaN last. *)
Definition desc_leb (a b : fval) : bool :=
  if is_nan b then true else if is_nan a then false else fval_leb b a.

(** [shift(1)] *)
Definition shift1 (l : list fval) : list fval := firstn (List.length l) (NaN :: l).

(** [pct_change()], which pandas computes as [data / data.shift(1) - 1]. *)
Definition pct_change (l : list fval) : list fval :=
  map (fun xp => fminus (fquot (fst xp) (snd xp)) (of_Z 1)) (combine l (shift1 l)).

(** A table with labelled rows and columns, as [pivot] and [pivot_table]
    return it. *)
Definition Pivot : Type := list (string * list (string * fval)).

(** Spreading one value per (index, column) pair into a table: the labels
    are the distinct values, sorted, and a missing pair is a NaN. *)
Definition unstack (l : list (string * string * fval)) : Pivot :=
  let idx := unique_sorted (map (fun e => fst (fst e)) l) in
  let cols := unique_sorted (map (fun e => snd (fst e)) l) in
  map (fun r =>
         (r, map (fun c =>
                    (c, match assoc (r, c) l with
                        | Some v => v
                        | None => NaN
                        end)) cols)) idx.

Definition pivot_get (pv : Pivot) (r c : string) : option fval :=
  match assoc r pv with
  | Some cells => assoc c cells
  | None => None
  end.

(** One column of a pivot, [pv[c]]: a [KeyError] unless [c] labels a
    column. *)
Definition pivot_column (pv : Pivot) (c : string) : Err (list (string * fval)) :=
  match pv with
  | [] => Raise (KeyError c)
  | (_, cells) :: _ =>
      match assoc c cells with
      | None => Raise (KeyError c)
      | Some _ =>
          OK (map (fun rc =>
                     (fst rc, match assoc c (snd rc) with
                              | Some v => v
                              | None => NaN
                              end)) pv)
      end
  end.

(** The first row at which [f] is largest, the row [idxmax] labels. *)
Fixpoint first_max {A} (f : A -> Z) (l : list A) : option A :=
  match l with
  | [] => None
  | a :: rest =>
      match first_max f rest with
      | Some b => if f a <? f b then Some b else Some a
      | None => Some a
      end
  end.

Definition first_min {A} (f : A -> Z) (l : list A) : option A :=
  first_max (fun a => - f a) l.

Definition option_list {A} (o : option A) : list A :=
  match o with Some a => [a] | None => [] end.

(** ** The derived tables *)

(** Totals per key, with the margin column. *)
Record Totals (K : Type) : Type := {
  t_key : K;
  t_sales : Z;
  t_cost : Z;
  t_profit : Z;
  profit_margin : fval
}.

Arguments t_key {K} t.
Arguments t_sales {K} t.
Arguments t_cost {K} t.
Arguments t_profit {K} t.
Arguments profit_margin {K} t.

Record MonthRow : Type := { m_month : string; m_sales : Z; m_profit : Z }.

Record ProductProfit : Type := {
  pp_product : string;
  pp_profit : Z;
  contribution_percentage : fval
}.

(** [profit / sales * 100], before [.round(2)]. *)
Definition margin_raw (profit sales : Z) : fval :=
  ftimes (fquot (of_Z profit) (of_Z sales)) (of_Z 100).

(** [groupby(key).agg({'sales': 'sum', 'cost': 'sum', 'profit': 'sum'})
    .reset_index()], and then the [profit_margin] column. *)
Definition totals_by {K} `{Key K} (key : Row -> K) (l : list Row) : list (Totals K) :=
  map (fun g =>
         let s := sumZ sales (snd g) in
         let c := sumZ cost (snd g) in
         let p := sumZ profit (snd g) in
         {| t_key := fst g; t_sales := s; t_cost := c; t_profit := p;
            profit_margin := round2 (margin_raw p s) |})
      (groupby key l).

(** [pd.pivot_table(df, values='profit', index='region', columns='product',
    aggfunc='mean')]: the mean per (region, product) group, unstacked. *)
Definition pd_pivot_table (l : list Row) : Pivot :=
  unstack
    (map (fun g => (fst g, mean profit (snd g)))
       (groupby (fun r => (region r, product r)) l)).

Definition pivot_round2 (pv : Pivot) : Pivot :=
  map (fun rc => (fst rc, map (fun cv => (fst cv, round2 (snd cv))) (snd rc))) pv.

(** [groupby('month').agg({'sales': 'sum', 'profit': 'sum'}).reset_index()]
    over the rows paired with their month. *)
Definition monthly_totals (l : list (Row * string)) : list MonthRow :=
  map (fun g =>
         {| m_month := fst g;
            m_sales := sumZ (fun re => sales (fst re)) (snd g);
            m_profit := sumZ (fun re => profit (fst re)) (snd g) |})
      (groupby snd l).

(** [groupby('product')['profit'].sum().reset_index()] *)
Definition profit_by_product (l : list Row) : list (string * Z) :=
  map (fun g => (fst g, sumZ profit (snd g))) (groupby product l).

(** [profit / total_profit * 100], before [.round(2)]. *)
Definition contribution_raw (p total : Z) : fval :=
  ftimes (fquot (of_Z p) (of_Z total)) (of_Z 100).

Definition with_contribution (l : list (string * Z)) : list ProductProfit :=
  let total_profit := sumZ snd l in
  map (fun e =>
         {| pp_product := fst e; pp_profit := snd e;
            contribution_percentage := round2 (contribution_raw (snd e) total_profit) |})
      l.

(** [pct_change() * 100] of the sales column. *)
Definition growth_rate (l : list MonthRow) : list fval :=
  map (fun g => ftimes g (of_Z 100)) (pct_change (map (fun m => of_Z (m_sales m)) l)).

(** [[['month', 'sales', 'growth_rate']].dropna()] *)
Definition growth_table (l : list MonthRow) (g : list fval) : list (string * Z * fval) :=
  map (fun mg => (m_month (fst mg), m_sales (fst mg), snd mg))
    (filter (fun mg => negb (is_nan (snd mg))) (combine l g)).

(** ** What a chart is given, and what a cell shows *)

Inductive Plot : Type :=
| Series (title : string) (series : list (string * list (string * fval)))
| FromRows (title : string) (rows : list Row).

Inductive Output : Type :=
| OShape (nrows ncols : nat)
| ODtypes (l : list (string * string))
| ODescribe (stats : list (list fval))
| OFrame (d : DataFrame)
| OProfitColumns (l : list (string * string * Z))
| OTop (l : list (Timestamp * string * string * Z))
| OTotals (l : list (Totals string))
| OAnalysis (l : list (Totals (string * string)))
| OPerformers (l : list (string * string * Z * fval))
| OPivot (pv : Pivot)
| OMonthly (l : list MonthRow)
| OProductProfit (l : list ProductProfit)
| OGrowth (l : list (string * Z * fval))
| OCorr (m : list (list fval))
| OPlot (p : Plot).

Section Notebook.

Variable np : NumPy.

(** The kernel's namespace: numpy's generator and the variables that one
    cell binds and another reads.  A variable both bound and read inside a
    single cell ([north_data], [q1_data], [product_monthly], ...) is local
    to that cell here. *)
Record NB : Type := {
  rng : RandomState np;
  v_df : option DataFrame;
  v_products : option (list string);
  v_region_summary : option (list (Totals string));
  v_pivot_table : option Pivot;
  v_monthly_sales : option (Frame MonthRow fval);
  v_product_profit : option (list ProductProfit);
  v_profit_analysis : option (list (Totals (string * string)));
  v_worst_products : option (list (Totals (string * string)))
}.

Definition set_rng (r : RandomState np) (s : NB) : NB :=
  {| rng := r; v_df := v_df s; v_products := v_products s;
     v_region_summary := v_region_summary s; v_pivot_table := v_pivot_table s;
     v_monthly_sales := v_monthly_sales s; v_product_profit := v_product_profit s;
     v_profit_analysis := v_profit_analysis s;
     v_worst_products := v_worst_products s |}.

Definition set_df (d : DataFrame) (s : NB) : NB :=
  {| rng := rng s; v_df := Some d; v_products := v_products s;
     v_region_summary := v_region_summary s; v_pivot_table := v_pivot_table s;
     v_monthly_sales := v_monthly_sales s; v_product_profit := v_product_profit s;
     v_profit_analysis := v_profit_analysis s;
     v_worst_products := v_worst_products s |}.

Definition set_products (l : list string) (s : NB) : NB :=
  {| rng := rng s; v_df := v_df s; v_products := Some l;
     v_region_summary := v_region_summary s; v_pivot_table := v_pivot_table s;
     v_monthly_sales := v_monthly_sales s; v_product_profit := v_product_profit s;
     v_profit_analysis := v_profit_analysis s;
     v_worst_products := v_worst_products s |}.

Definition set_region_summary (l : list (Totals string)) (s : NB) : NB :=
  {| rng := rng s; v_df := v_df s; v_products := v_products s;
     v_region_summary := Some l; v_pivot_table := v_pivot_table s;
     v_monthly_sales := v_monthly_sales s; v_product_profit := v_product_profit s;
     v_profit_analysis := v_profit_analysis s;
     v_worst_products := v_worst_products s |}.

Definition set_pivot_table (pv : Pivot) (s : NB) : NB :=
  {| rng := rng s; v_df := v_df s; v_products := v_products s;
     v_region_summary := v_region_summary s; v_pivot_table := Some pv;
     v_monthly_sales := v_monthly_sales s; v_product_profit := v_product_profit s;
     v_profit_analysis := v_profit_analysis s;
     v_worst_products := v_worst_products s |}.

Definition set_monthly_sales (f : Frame MonthRow fval) (s : NB) : NB :=
  {| rng := rng s; v_df := v_df s; v_products := v_products s;
     v_region_summary := v_region_summary s; v_pivot_table := v_pivot_table s;
     v_monthly_sales := Some f; v_product_profit := v_product_profit s;
     v_profit_analysis := v_profit_analysis s;
     v_worst_products := v_worst_products s |}.

Definition set_product_profit (l : list ProductProfit) (s : NB) : NB :=
  {| rng := rng s; v_df := v_df s; v_products := v_products s;
     v_region_summary := v_region_summary s; v_pivot_table := v_pivot_table s;
     v_monthly_sales := v_monthly_sales s; v_product_profit := Some l;
     v_profit_analysis := v_profit_analysis s;
     v_worst_products := v_worst_products s |}.

Definition set_profit_analysis (l : list (Totals (string * string))) (s : NB) : NB :=
  {| rng := rng s; v_df := v_df s; v_products := v_products s;
     v_region_summary := v_region_summary s; v_pivot_table := v_pivot_table s;
     v_monthly_sales := v_monthly_sales s; v_product_profit := v_product_profit s;
     v_profit_analysis := Some l;
     v_worst_products := v_worst_products s |}.

Definition set_worst_products (l : list (Totals (string * string))) (s : NB) : NB :=
  {| rng := rng s; v_df := v_df s; v_products := v_products s;
     v_region_summary := v_region_summary s; v_pivot_table := v_pivot_table s;
     v_monthly_sales := v_monthly_sales s; v_product_profit := v_product_profit s;
     v_profit_analysis := v_profit_analysis s;
     v_worst_products := Some l |}.

(** Reading a variable: a [NameError] while it is unbound. *)
Definition var {A} (name : string) (proj : NB -> option A) : M NB A :=
  fun s =>
    match proj s with
    | Some a => (s, OK a)
    | None => (s, Raise (NameError name))
    end.

(** [df.dtypes] *)
Definition dtypes (d : DataFrame) : list (string * string) :=
  map (fun c =>
         (c, if String.eqb c "date" then "datetime64[ns]"
             else if String.eqb c "sales" || String.eqb c "cost"
                     || String.eqb c "profit" then "int64"
             else "object"))
    (columns d).

Definition shape (d : DataFrame) : Output :=
  OShape (List.length (body d)) (List.length (columns d)).

(** ** The cells *)

(** The three nested loops, run on numpy's generator with [data = []]. *)
Definition run_loop : M NB (list Row) :=
  fun s =>
    match gen_loop np {| rs := rng s; data := [] |} with
    | (g, OK _) => (set_rng (rs np g) s, OK (data np g))
    | (g, Raise e) => (set_rng (rs np g) s, Raise e)
    end.

(** Cell 3: seed, parameters, loop, [df = pd.DataFrame(data)], [df.head()]. *)
Definition cell3 : M NB (list Output) :=
  modify (set_rng (random_seed np 42)) ;;;
  modify (set_products products) ;;;
  data <- run_loop ;;
  let d := {| body := data; extra := None |} in
  modify (set_df d) ;;;
  ret [OFrame (frame_head 5 d)].

(** Cell 4: shape, dtypes, [df.describe()]. *)
Definition cell4 : M NB (list Output) :=
  d <- var "df" v_df ;;
  ret [shape d;
       ODtypes (dtypes d);
       ODescribe (describe np [map sales (body d); map cost (body d);
                               map profit (body d)])].

(** Cell 6: [df[df['region'] == 'North']]. *)
Definition cell6 : M NB (list Output) :=
  d <- var "df" v_df ;;
  let north_data := frame_filter (fun r => String.eqb (region r) "North") d in
  ret [shape north_data; OFrame (frame_head 5 north_data)].

(** Cell 7: Product A in the South region. *)
Definition cell7 : M NB (list Output) :=
  d <- var "df" v_df ;;
  let product_a_south :=
    frame_filter
      (fun r => String.eqb (product r) "Product A" && String.eqb (region r) "South")
      d in
  ret [shape product_a_south; OFrame (frame_head 5 product_a_south)].

(** Cell 8: the first quarter of 2023. *)
Definition cell8 : M NB (list Output) :=
  d <- var "df" v_df ;;
  let q1_data :=
    frame_filter
      (fun r =>
         ts_leb {| year := 2023; month := 1; day := 1 |} (date r)
         && ts_leb (date r) {| year := 2023; month := 3; day := 31 |})
      d in
  ret [shape q1_data; OFrame (frame_head 5 q1_data)].

(** Cell 9: [df[['region', 'product', 'profit']].head()]. *)
Definition cell9 : M NB (list Output) :=
  d <- var "df" v_df ;;
  ret [OProfitColumns
         (firstn 5 (map (fun r => (region r, product r, profit r)) (body d)))].

(** Cell 10: the ten most profitable rows.  Rows of equal profit keep
    their table order here; pandas promises no order among them. *)
Definition cell10 : M NB (list Output) :=
  d <- var "df" v_df ;;
  let top_profit :=
    firstn 10 (sort_by (fun a b => profit b <=? profit a) (body d)) in
  ret [OTop (map (fun r => (date r, region r, product r, profit r)) top_profit)].

(** Cell 11: totals by region, with the margin. *)
Definition cell11 : M NB (list Output) :=
  d <- var "df" v_df ;;
  let region_summary := totals_by region (body d) in
  modify (set_region_summary region_summary) ;;;
  ret [OTotals region_summary].

(** Cell 12: the pivot table of mean profit, then rounded. *)
Definition cell12 : M NB (list Output) :=
  d <- var "df" v_df ;;
  let pivot_table := pd_pivot_table (body d) in
  let pivot_table := pivot_round2 pivot_table in
  modify (set_pivot_table pivot_table) ;;;
  ret [OPivot pivot_table].

(** Cell 13: [df['month'] = df['date'].dt.strftime('%Y-%m')], then the
    monthly totals. *)
Definition cell13 : M NB (list Output) :=
  d <- var "df" v_df ;;
  let d := set_extra (map (fun r => strftime_Ym (date r)) (body d)) d in
  modify (set_df d) ;;;
  keyed <- lift_err (with_extra "month" d) ;;
  let monthly_sales := monthly_totals keyed in
  modify (set_monthly_sales {| body := monthly_sales; extra := None |}) ;;;
  ret [OMonthly monthly_sales].

(** Cell 14: the share of each product in the total profit. *)
Definition cell14 : M NB (list Output) :=
  d <- var "df" v_df ;;
  let product_profit := with_contribution (profit_by_product (body d)) in
  modify (set_product_profit product_profit) ;;;
  ret [OProductProfit
         (sort_by (fun a b => desc_leb (contribution_percentage a)
                                (contribution_percentage b))
            product_profit)].

(** Cell 16: bar chart of [region_summary]. *)
Definition cell16 : M NB (list Output) :=
  region_summary <- var "region_summary" v_region_summary ;;
  ret [OPlot (Series "Total Sales by Region"
                [("sales",
                  map (fun t => (t_key t, of_Z (t_sales t))) region_summary)])].

(** Cell 17: line chart of [monthly_sales]. *)
Definition cell17 : M NB (list Output) :=
  monthly_sales <- var "monthly_sales" v_monthly_sales ;;
  ret [OPlot (Series "Monthly Sales Trend"
                [("sales",
                  map (fun m => (m_month m, of_Z (m_sales m)))
                    (body monthly_sales))])].

(** Cell 18: pie chart of [product_profit]; [explode] has three entries,
    and matplotlib wants one per wedge. *)
Definition cell18 : M NB (list Output) :=
  product_profit <- var "product_profit" v_product_profit ;;
  if Nat.eqb (List.length product_profit) 3
  then ret [OPlot (Series "Profit Contribution by Product"
                     [("profit",
                       map (fun e => (pp_product e, of_Z (pp_profit e)))
                         product_profit)])]
  else raise (ValueError "'explode' must be of length 'x'").

(** Cell 19: heatmap of [pivot_table]. *)
Definition cell19 : M NB (list Output) :=
  pivot_table <- var "pivot_table" v_pivot_table ;;
  ret [OPlot (Series "Average Profit by Region and Product" pivot_table)].

(** [for product in products: plt.plot(..., product_monthly_pivot[product], ...)] *)
Fixpoint plot_columns (pv : Pivot) (ps : list string)
  : Err (list (string * list (string * fval))) :=
  match ps with
  | [] => OK []
  | p :: rest =>
      match pivot_column pv p with
      | OK col =>
          match plot_columns pv rest with
          | OK cols => OK ((p, col) :: cols)
          | Raise e => Raise e
          end
      | Raise e => Raise e
      end
  end.

(** Cell 20: sales by month and product; the group-by reads the ['month']
    column of [df]. *)
Definition cell20 : M NB (list Output) :=
  d <- var "df" v_df ;;
  keyed <- lift_err (with_extra "month" d) ;;
  let product_monthly :=
    map (fun g => (fst g, of_Z (sumZ (fun re => sales (fst re)) (snd g))))
      (groupby (fun re => (snd re, product (fst re))) keyed) in
  let product_monthly_pivot := unstack product_monthly in
  ps <- var "products" v_products ;;
  lines <- lift_err (plot_columns product_monthly_pivot ps) ;;
  ret [OPlot (Series "Monthly Sales Trend by Product" lines)].

(** Cell 21: sales by region and product, one bar series per product. *)
Definition cell21 : M NB (list Output) :=
  d <- var "df" v_df ;;
  let region_product_sales :=
    map (fun g => (fst g, sumZ sales (snd g)))
      (groupby (fun r => (region r, product r)) (body d)) in
  ret [OPlot (Series "Sales Composition by Region and Product"
                (map (fun g =>
                        (fst g, map (fun e => (fst (fst e), of_Z (snd e))) (snd g)))
                   (collect (fun e => snd (fst e)) region_product_sales)))].

(** Cell 22: box plot of profit by region, from [df]. *)
Definition cell22 : M NB (list Output) :=
  d <- var "df" v_df ;;
  ret [OPlot (FromRows "Profit Distribution by Region" (body d))].

(** Cell 23: scatter plot of sales against profit, from [df]. *)
Definition cell23 : M NB (list Output) :=
  d <- var "df" v_df ;;
  ret [OPlot (FromRows "Sales vs. Profit by Product" (body d))].

(** Cell 25: totals by region and product, sorted by margin, descending. *)
Definition cell25 : M NB (list Output) :=
  d <- var "df" v_df ;;
  let profit_analysis := totals_by (fun r => (region r, product r)) (body d) in
  let profit_analysis :=
    sort_by (fun a b => desc_leb (profit_margin a) (profit_margin b))
      profit_analysis in
  modify (set_profit_analysis profit_analysis) ;;;
  ret [OAnalysis (firstn 5 profit_analysis)].

(** Cell 26: bar chart of the margins, one series per product. *)
Definition cell26 : M NB (list Output) :=
  profit_analysis <- var "profit_analysis" v_profit_analysis ;;
  ret [OPlot (Series "Profit Margin by Region and Product"
                (map (fun g =>
                        (fst g,
                         map (fun t => (fst (t_key t), profit_margin t)) (snd g)))
                   (collect (fun t => snd (t_key t)) profit_analysis)))].

(** Cell 27: the time series chart, then
    [monthly_sales['growth_rate'] = monthly_sales['sales'].pct_change() * 100]
    and the table without its NaN rows. *)
Definition cell27 : M NB (list Output) :=
  monthly_sales <- var "monthly_sales" v_monthly_sales ;;
  let monthly_sales_ts :=
    map (fun m => (m_month m, of_Z (m_sales m))) (body monthly_sales) in
  let g := growth_rate (body monthly_sales) in
  modify (set_monthly_sales (set_extra g monthly_sales)) ;;;
  ret [OPlot (Series "Monthly Sales Time Series" [("sales", monthly_sales_ts)]);
       OGrowth (growth_table (body monthly_sales) g)].

(** Cell 28: the correlation matrix of sales, cost and profit. *)
Definition cell28 : M NB (list Output) :=
  d <- var "df" v_df ;;
  let cols := [map sales (body d); map cost (body d); map profit (body d)] in
  ret [OCorr (map (fun a => map (fun b => pearson np a b) cols) cols)].

Definition performers (l : list (Totals (string * string)))
  : list (string * string * Z * fval) :=
  map (fun t => (fst (t_key t), snd (t_key t), t_profit t, profit_margin t)) l.

(** Cell 29: per region, the row of [profit_analysis] with the largest
    profit, and the one with the smallest. *)
Definition cell29 : M NB (list Output) :=
  profit_analysis <- var "profit_analysis" v_profit_analysis ;;
  let by_region := groupby (fun t => fst (t_key t)) profit_analysis in
  let best_products :=
    flat_map (fun g => option_list (first_max t_profit (snd g))) by_region in
  let worst_products :=
    flat_map (fun g => option_list (first_min t_profit (snd g))) by_region in
  modify (set_worst_products worst_products) ;;;
  ret [OPerformers (performers best_products)].

(** Cell 30: the worst performers. *)
Definition cell30 : M NB (list Output) :=
  worst_products <- var "worst_products" v_worst_products ;;
  ret [OPerformers (performers worst_products)].

(** ** Running the notebook *)

Inductive Cell : Type :=
| C3 | C4 | C6 | C7 | C8 | C9 | C10 | C11 | C12 | C13 | C14
| C16 | C17 | C18 | C19 | C20 | C21 | C22 | C23
| C25 | C26 | C27 | C28 | C29 | C30.

Definition run_cell (c : Cell) : M NB (list Output) :=
  match c with
  | C3 => cell3 | C4 => cell4 | C6 => cell6 | C7 => cell7 | C8 => cell8
  | C9 => cell9 | C10 => cell10 | C11 => cell11 | C12 => cell12
  | C13 => cell13 | C14 => cell14 | C16 => cell16 | C17 => cell17
  | C18 => cell18 | C19 => cell19 | C20 => cell20 | C21 => cell21
  | C22 => cell22 | C23 => cell23 | C25 => cell25 | C26 => cell26
  | C27 => cell27 | C28 => cell28 | C29 => cell29 | C30 => cell30
  end.

(** The namespace after a cell, whether it ended normally or not. *)
Definition step (c : Cell) (s : NB) : NB := fst (run_cell c s).

(** What the cell showed, or the exception it ended with. *)
Definition result (c : Cell) (s : NB) : Err (list Output) := snd (run_cell c s).

(** Cells run one after another, in any order the user picks. *)
Definition exec (cs : list Cell) (s : NB) : NB :=
  fold_left (fun s c => step c s) cs s.

(** Run All: the cells in order, stopping at the first exception. *)
Fixpoint run_all (cs : list Cell) : M NB (list (list Output)) :=
  match cs with
  | [] => ret []
  | c :: rest =>
      o <- run_cell c ;;
      os <- run_all rest ;;
      ret (o :: os)
  end.

(** The analysis cells, in notebook order. *)
Definition analysis_cells : list Cell :=
  [C4; C6; C7; C8; C9; C10; C11; C12; C13; C14; C16; C17; C18; C19; C20;
   C21; C22; C23; C25; C26; C27; C28; C29; C30].

Definition notebook : list Cell := C3 :: analysis_cells.

(** The six-column table of a namespace, the added column left out. *)
Definition table (s : NB) : option (list Row) := option_map body (v_df s).

End Notebook.

Arguments rng {np} n.
Arguments v_df {np} n.
Arguments v_products {np} n.
Arguments v_region_summary {np} n.
Arguments v_pivot_table {np} n.
Arguments v_monthly_sales {np} n.
Arguments v_product_profit {np} n.
Arguments v_profit_analysis {np} n.
Arguments v_worst_products {np} n.


(** ** Vocabulary of the statements *)

(** The derived-field identity of a row. *)
Definition profit_ok (r : Row) : Prop := profit r = sales r - cost r.

Definition key3 (r : Row) : string * string * Timestamp :=
  (region r, product r, date r).

Definition key3_eqb (a b : string * string * Timestamp) : bool :=
  String.eqb (fst (fst a)) (fst (fst b))
  && String.eqb (snd (fst a)) (snd (fst b))
  && ts_eqb (snd a) (snd b).

(** The (region, product, month) combinations, in loop order. *)
Definition combos : list (string * string * Timestamp) :=
  flat_map (fun r => flat_map (fun p => map (fun m => (r, p, m)) months) products)
    regions.

(** A generator step that cannot fail, appends rows with the keys [ks] to
    [data], each satisfying the identity, and touches nothing before
    them. *)
Definition produces (np : NumPy) (c : M (GenState np) unit)
    (ks : list (string * string * Timestamp)) : Prop :=
  forall s, exists r rows,
    c s = ({| rs := r; data := data np s ++ rows |}, OK tt)
    /\ map key3 rows = ks
    /\ Forall profit_ok rows.

(** The table cell 3 builds: the loop run from the seeded generator. *)
Definition generated_rows (np : NumPy) : list Row :=
  data np (fst (gen_loop np {| rs := random_seed np 42; data := [] |})).

Definition region_is (k : string) (r : Row) : bool := String.eqb (region r) k.

Definition region_product_is (k p : string) (r : Row) : bool :=
  String.eqb (region r) k && String.eqb (product r) p.

(** What cell 13 makes of [df]: the same rows, and the ['month'] column. *)
Definition add_month (d : DataFrame) : DataFrame :=
  set_extra (map (fun r => strftime_Ym (date r)) (body d)) d.

(** The rows whose key is [k]. *)
Definition key_is {A K} `{Key K} (key : A -> K) (k : K) (a : A) : bool :=
  keqb (key a) k.

(** All the (region, product, month) combinations. *)
Definition all_keys : list (string * string * Timestamp) :=
  list_prod (list_prod regions products) months.

(** How many rows carry a key. *)
Definition rows_with (k : string * string * Timestamp) (l : list Row) : nat :=
  List.length (filter (fun r => key3_eqb (key3 r) k) l).



(** The cells that read nothing but the six columns of [df]. *)
Definition six_column_cells : list Cell :=
  [C9; C10; C11; C12; C13; C14; C21; C22; C23; C25; C28].

(** The variables of the namespace. *)
Inductive Var : Type :=
| Vrng | Vdf | Vproducts | Vregion_summary | Vpivot_table | Vmonthly_sales
| Vproduct_profit | Vprofit_analysis | Vworst_products.

Definition var_name (v : Var) : string :=
  match v with
  | Vrng => "np.random"
  | Vdf => "df"
  | Vproducts => "products"
  | Vregion_summary => "region_summary"
  | Vpivot_table => "pivot_table"
  | Vmonthly_sales => "monthly_sales"
  | Vproduct_profit => "product_profit"
  | Vprofit_analysis => "profit_analysis"
  | Vworst_products => "worst_products"
  end.

Definition is_some {A} (o : option A) : bool :=
  match o with Some _ => true | None => false end.

(** Whether a variable is bound; numpy's generator always is. *)
Definition bound {np} (s : NB np) (v : Var) : bool :=
  match v with
  | Vrng => true
  | Vdf => is_some (v_df s)
  | Vproducts => is_some (v_products s)
  | Vregion_summary => is_some (v_region_summary s)
  | Vpivot_table => is_some (v_pivot_table s)
  | Vmonthly_sales => is_some (v_monthly_sales s)
  | Vproduct_profit => is_some (v_product_profit s)
  | Vprofit_analysis => is_some (v_profit_analysis s)
  | Vworst_products => is_some (v_worst_products s)
  end.

(** Two namespaces hold the same value in a variable. *)
Definition same_value {np} (v : Var) (s s' : NB np) : Prop :=
  match v with
  | Vrng => rng s = rng s'
  | Vdf => v_df s = v_df s'
  | Vproducts => v_products s = v_products s'
  | Vregion_summary => v_region_summary s = v_region_summary s'
  | Vpivot_table => v_pivot_table s = v_pivot_table s'
  | Vmonthly_sales => v_monthly_sales s = v_monthly_sales s'
  | Vproduct_profit => v_product_profit s = v_product_profit s'
  | Vprofit_analysis => v_profit_analysis s = v_profit_analysis s'
  | Vworst_products => v_worst_products s = v_worst_products s'
  end.

(** The first variable a cell reads, as its source has it; cell 3 reads
    none. *)
Definition first_read (c : Cell) : option Var :=
  match c with
  | C3 => None
  | C16 => Some Vregion_summary
  | C17 | C27 => Some Vmonthly_sales
  | C18 => Some Vproduct_profit
  | C19 => Some Vpivot_table
  | C26 | C29 => Some Vprofit_analysis
  | C30 => Some Vworst_products
  | _ => Some Vdf
  end.

(** The variables a cell assigns, as its source has them. *)
Definition assigns (c : Cell) : list Var :=
  match c with
  | C3 => [Vrng; Vproducts; Vdf]
  | C11 => [Vregion_summary]
  | C12 => [Vpivot_table]
  | C13 => [Vdf; Vmonthly_sales]
  | C14 => [Vproduct_profit]
  | C25 => [Vprofit_analysis]
  | C27 => [Vmonthly_sales]
  | C29 => [Vworst_products]
  | _ => []
  end.

(** The month of a row as cell 13 writes it. *)
Definition month_of (r : Row) : string := strftime_Ym (date r).

(** The months of 2023 as cell 13 writes them. *)
Definition months_2023 : list string :=
  ["2023-01"; "2023-02"; "2023-03"; "2023-04"; "2023-05"; "2023-06";
   "2023-07"; "2023-08"; "2023-09"; "2023-10"; "2023-11"; "2023-12"].


(** ** A small instance to compute with

    Rationals for floats, a parabola for the sine, a linear congruential
    generator for the sampler.  It fixes no fact about numpy; it lets the
    cells run on concrete numbers. *)

Module Sample.

Definition sine (x : Q) : Q :=
  let pi := 22 # 7 in
  if Qle_bool x pi
  then Qred (4 * x * (pi - x) / (pi * pi))
  else Qred (- (4 * (x - pi) * (2 * pi - x) / (pi * pi))).

Definition truncate (q : Q) : Z := Z.quot (Qnum q) (Zpos (Qden q)).

Definition next (st : Z) : Z := (st * 1103515245 + 12345) mod 2147483648.

Definition draw (mu sigma : Q) (st : Z) : Q * Z :=
  let st' := next st in
  (Qred (mu + sigma * (inject_Z ((st' / 65536) mod 7 - 3) / 2)), st').

Definition numpy : NumPy :=
  {| float := Q;
     of_int := inject_Z;
     lit := fun q => q;
     fadd := fun a b => Qred (a + b);
     fmul := fun a b => Qred (a * b);
     fdiv := fun a b => Qred (a / b);
     np_sin := sine;
     np_pi := 22 # 7;
     int_trunc := truncate;
     RandomState := Z;
     random_seed := fun z => z;
     random_normal := draw;
     describe := fun _ => [];
     pearson := fun _ _ => NaN |}.

(** The added column of a frame, empty when there is none. *)
Definition extra_of {R E} (f : Frame R E) : list E :=
  match extra f with Some col => col | None => [] end.

(** A kernel that has run nothing yet. *)
Definition fresh : NB numpy :=
  Build_NB numpy 0 None None None None None None None None.

(** After the generator alone, and after the generator and cell 13. *)
Definition generated : NB numpy := exec numpy [C3] fresh.
Definition with_month : NB numpy := exec numpy [C3; C13] fresh.

(** The table of this instance, and its monthly totals. *)
Definition df0 : DataFrame := {| body := generated_rows numpy; extra := None |}.




(** After the generator and cell 25, and the analysis cell 25 binds. *)
Definition analysed : NB numpy := exec numpy [C3; C25] fresh.

Definition analysis : list (Totals (string * string)) :=
  match v_profit_analysis analysed with Some pa => pa | None => [] end.

End Sample.

(** ** The generator *)

Section GeneratorFacts.

Variable np : NumPy.

Lemma produces_ret : produces np (ret tt) [].
Proof.
  intros [r d]. exists r, []. simpl. rewrite app_nil_r. repeat split; constructor.
Qed.

Lemma produces_seq c1 c2 k1 k2 :
  produces np c1 k1 -> produces np c2 k2 -> produces np (c1 ;;; c2) (k1 ++ k2).
Proof.
  intros H1 H2 s.
  destruct (H1 s) as (r1 & rows1 & E1 & K1 & P1).
  destruct (H2 {| rs := r1; data := data np s ++ rows1 |}) as (r2 & rows2 & E2 & K2 & P2).
  exists r2, (rows1 ++ rows2). unfold bind. rewrite E1, E2. simpl.
  rewrite app_assoc, map_app, K1, K2.
  repeat split. apply Forall_app; auto.
Qed.

Lemma produces_for_each {X} (xs : list X) body f :
  (forall x, In x xs -> produces np (body x) (f x)) ->
  produces np (for_each xs body) (flat_map f xs).
Proof.
  induction xs as [|x xs IH]; intros Hb; simpl.
  - apply produces_ret.
  - apply produces_seq.
    + apply Hb. now left.
    + apply IH. intros y Hy. apply Hb. now right.
Qed.

Lemma base_sales_defined r p :
  In r regions -> In p products ->
  exists by_product base,
    dict_get base_sales r = OK by_product /\ dict_get by_product p = OK base.
Proof.
  unfold regions, products. simpl.
  intros [<-|[<-|[<-|[<-|[]]]]] [<-|[<-|[<-|[]]]]; simpl;
    (do 2 eexists; split; reflexivity).
Qed.

Lemma produces_gen_row r p m :
  In r regions -> In p products -> produces np (gen_row np r p m) [(r, p, m)].
Proof.
  intros Hr Hp [st d].
  destruct (base_sales_defined r p Hr Hp) as (bp & base & E1 & E2).
  unfold gen_row, bind, normal, lift_err, append, modify. cbn [rs data].
  destruct (random_normal np _ _ st) as [noise st1].
  rewrite E1, E2. cbn [rs data].
  destruct (random_normal np _ _ st1) as [eps st2]. cbn [rs data].
  eexists st2, [_]. repeat split.
  constructor; [reflexivity | constructor].
Qed.

Lemma map_as_flat_map {X Y} (g : X -> Y) (l : list X) :
  map g l = flat_map (fun x => [g x]) l.
Proof. induction l; simpl; congruence. Qed.

Lemma produces_gen_loop : produces np (gen_loop np) combos.
Proof.
  unfold gen_loop, combos.
  apply produces_for_each with
    (f := fun r => flat_map (fun p => map (fun m => (r, p, m)) months) products).
  intros r Hr.
  apply produces_for_each with (f := fun p => map (fun m => (r, p, m)) months).
  intros p Hp.
  rewrite map_as_flat_map.
  apply produces_for_each with (f := fun m => [(r, p, m)]).
  intros m _. now apply produces_gen_row.
Qed.

Lemma generated_rows_keys : map key3 (generated_rows np) = combos.
Proof.
  unfold generated_rows.
  destruct (produces_gen_loop {| rs := random_seed np 42; data := [] |})
    as (r & rows & E & K & _).
  rewrite E. exact K.
Qed.

Lemma generated_rows_ok : Forall profit_ok (generated_rows np).
Proof.
  unfold generated_rows.
  destruct (produces_gen_loop {| rs := random_seed np 42; data := [] |})
    as (r & rows & E & _ & P).
  rewrite E. exact P.
Qed.

(** Cell 3 always ends normally, and binds [df] to the generated table,
    whatever the namespace held before. *)
Lemma cell3_df (s : NB np) :
  v_df (step np C3 s) = Some {| body := generated_rows np; extra := None |}
  /\ v_products (step np C3 s) = Some products
  /\ result np C3 s
     = OK [OFrame (frame_head 5 {| body := generated_rows np; extra := None |})].
Proof.
  unfold step, result, run_cell, cell3, bind, modify, run_loop, generated_rows.
  simpl.
  destruct (produces_gen_loop {| rs := random_seed np 42; data := [] |})
    as (r & rows & E & _ & _).
  rewrite E. simpl. auto.
Qed.

End GeneratorFacts.

(** ** What a cell does to [df] *)

Ltac split_match :=
  match goal with
  | |- context [match ?x with _ => _ end] =>
      lazymatch x with
      | context [match _ with _ => _ end] => fail
      | _ => destruct x eqn:?
      end
  end.

Ltac nb_simpl :=
  cbn [fst snd v_df v_products v_region_summary v_pivot_table v_monthly_sales
       v_product_profit v_profit_analysis v_worst_products rng
       set_df set_products set_region_summary set_pivot_table
       set_monthly_sales set_product_profit set_profit_analysis
       set_worst_products set_rng body extra].

Ltac run_cell_cases :=
  unfold step, result, run_cell, cell3, cell4, cell6, cell7, cell8, cell9,
    cell10, cell11, cell12, cell13, cell14, cell16, cell17, cell18, cell19,
    cell20, cell21, cell22, cell23, cell25, cell26, cell27, cell28, cell29,
    cell30, bind, var, modify, ret, raise, lift_err, with_extra, set_extra;
  nb_simpl.

Section StepFacts.

Variable np : NumPy.

(** Apart from the generator, one cell writes [df]: cell 13 sets the
    ['month'] column and keeps the rows.  Every other cell leaves [df] as
    it found it, bound or not. *)
Lemma step_df (c : Cell) (s : NB np) :
  c <> C3 ->
  v_df (step np c s) =
    match c with
    | C13 => option_map add_month (v_df s)
    | _ => v_df s
    end.
Proof.
  intros Hc. destruct c; try contradiction; run_cell_cases;
    repeat (split_match; cbn [fst snd v_df set_df set_region_summary
      set_pivot_table set_monthly_sales set_product_profit
      set_profit_analysis set_worst_products option_map]);
    try reflexivity; try congruence.
Qed.

Lemma exec_cons (c : Cell) (cs : list Cell) (s : NB np) :
  exec np (c :: cs) s = exec np cs (step np c s).
Proof. reflexivity. Qed.

Lemma cell_is_C3_or_not (c : Cell) : c = C3 \/ c <> C3.
Proof. destruct c; (now left) || (right; discriminate). Qed.

(** Once [df] holds the generated rows it holds them for good: cell 3
    rebuilds the same rows, cell 13 keeps them, the others do not write. *)
Lemma step_keeps_rows (c : Cell) (s : NB np) (d : DataFrame) :
  v_df s = Some d -> body d = generated_rows np ->
  exists d', v_df (step np c s) = Some d' /\ body d' = generated_rows np.
Proof.
  intros Hd Hb. destruct (cell_is_C3_or_not c) as [-> | Hc].
  - destruct (cell3_df np s) as (E & _). rewrite E. eauto.
  - rewrite (step_df c s Hc), Hd.
    destruct c; simpl; eauto.
Qed.

Lemma exec_keeps_rows (cs : list Cell) (s : NB np) (d : DataFrame) :
  v_df s = Some d -> body d = generated_rows np ->
  exists d', v_df (exec np cs s) = Some d' /\ body d' = generated_rows np.
Proof.
  revert s d. induction cs as [|c cs IH]; intros s d Hd Hb.
  - simpl. eauto.
  - rewrite exec_cons.
    destruct (step_keeps_rows c s d Hd Hb) as (d' & Hd' & Hb').
    eapply IH; eauto.
Qed.

Lemma exec_from_cell3 (cs : list Cell) (s : NB np) :
  exists d, v_df (exec np (C3 :: cs) s) = Some d /\ body d = generated_rows np.
Proof.
  rewrite exec_cons. destruct (cell3_df np s) as (E & _).
  eapply exec_keeps_rows; [exact E | reflexivity].
Qed.

(** C1.  Every row of the generated table has profit = sales - cost, and
    so has every row of [df] after cell 3 and any further cells, run in any
    order and any number of times: [df] then still holds the generated
    rows. *)
Theorem profit_identity_invariant (s : NB np) (cs : list Cell) :
  exists d,
    v_df (exec np (C3 :: cs) s) = Some d
    /\ body d = generated_rows np
    /\ Forall profit_ok (body d).
Proof.
  destruct (exec_from_cell3 cs s) as (d & Hd & Hb).
  exists d. repeat split; auto.
  rewrite Hb. apply generated_rows_ok.
Qed.

(** C2, as amended.  A cell other than the generator leaves [df] exactly
    as it was, with one exception: cell 13 adds the ['month'] column.  It
    keeps every row, so the six original columns never change. *)
Theorem df_written_only_by_cell13 (c : Cell) (s : NB np) (d : DataFrame) :
  c <> C3 ->
  v_df s = Some d ->
  v_df (step np c s) = Some (match c with C13 => add_month d | _ => d end)
  /\ body (add_month d) = body d
  /\ columns (add_month d) = base_columns ++ ["month"].
Proof.
  intros Hc Hd. rewrite (step_df c s Hc), Hd.
  repeat split. destruct c; reflexivity.
Qed.

(** C8.  Cell 3 seeds numpy's generator before it draws, so the table it
    binds does not depend on the namespace, or the generator state, it
    starts from: any two runs bind equal tables. *)
Theorem generation_deterministic (s1 s2 : NB np) :
  v_df (step np C3 s1) = v_df (step np C3 s2)
  /\ v_df (step np C3 s1) = Some {| body := generated_rows np; extra := None |}.
Proof.
  destruct (cell3_df np s1) as (E1 & _), (cell3_df np s2) as (E2 & _).
  rewrite E1, E2. split; reflexivity.
Qed.

Lemma rows_with_keys (k : string * string * Timestamp) (l : list Row) :
  rows_with k l = List.length (filter (fun k' => key3_eqb k' k) (map key3 l)).
Proof.
  unfold rows_with. induction l as [|r l IH]; simpl; [reflexivity|].
  destruct (key3_eqb (key3 r) k); simpl; congruence.
Qed.

Lemma combos_all_keys : combos = all_keys.
Proof. vm_compute. reflexivity. Qed.

Lemma all_keys_once :
  forallb (fun k => Nat.eqb (List.length (filter (fun k' => key3_eqb k' k) all_keys)) 1)
    all_keys = true.
Proof. vm_compute. reflexivity. Qed.

(** C4.  Four regions, three products, the twelve month ends of 2023;
    every combination of them is the key of exactly one row of the
    generated table, every row has such a key, and there are 144 rows. *)
Theorem generated_table_shape (s : NB np) :
  exists d,
    v_df (step np C3 s) = Some d
    /\ (List.length regions = 4%nat /\ NoDup regions)
    /\ (List.length products = 3%nat /\ NoDup products)
    /\ map (fun t => (year t, month t)) months
       = map (fun m => (2023, m)) [1; 2; 3; 4; 5; 6; 7; 8; 9; 10; 11; 12]
    /\ Forall (fun k => rows_with k (body d) = 1%nat) all_keys
    /\ Forall (fun r => In (key3 r) all_keys) (body d)
    /\ List.length (body d) = (4 * 3 * 12)%nat.
Proof.
  destruct (cell3_df np s) as (E & _).
  eexists. split; [exact E|]. cbn [body].
  pose proof (generated_rows_keys np) as K. rewrite combos_all_keys in K.
  split; [split; [reflexivity|] |].
  { repeat constructor; simpl; intuition discriminate. }
  split; [split; [reflexivity|] |].
  { repeat constructor; simpl; intuition discriminate. }
  split; [reflexivity|].
  split; [| split].
  - apply Forall_forall. intros k Hk.
    rewrite rows_with_keys, K.
    pose proof all_keys_once as A. rewrite forallb_forall in A.
    apply Nat.eqb_eq. now apply A.
  - apply Forall_forall. intros r Hr. rewrite <- K. now apply in_map.
  - rewrite <- (length_map key3), K. reflexivity.
Qed.

End StepFacts.

(** ** Sorting, sums and group-by *)

Section SortFacts.

Context {A : Type}.
Variable leb : A -> A -> bool.

Lemma insert_by_perm (x : A) (l : list A) : Permutation (insert_by leb x l) (x :: l).
Proof.
  induction l as [|h t IH]; simpl; [reflexivity|].
  destruct (leb x h); [reflexivity|].
  rewrite IH. apply perm_swap.
Qed.

Lemma sort_by_perm (l : list A) : Permutation (sort_by leb l) l.
Proof.
  induction l as [|h t IH]; simpl; [reflexivity|].
  rewrite insert_by_perm. now constructor.
Qed.

End SortFacts.

Lemma sumZ_app {A} (f : A -> Z) (l1 l2 : list A) :
  sumZ f (l1 ++ l2) = sumZ f l1 + sumZ f l2.
Proof. induction l1 as [|a l1 IH]; simpl; [reflexivity | rewrite IH; lia]. Qed.

Lemma sumZ_perm {A} (f : A -> Z) (l1 l2 : list A) :
  Permutation l1 l2 -> sumZ f l1 = sumZ f l2.
Proof. induction 1; simpl; lia. Qed.

Lemma sumZ_map {A B} (g : A -> B) (f : B -> Z) (l : list A) :
  sumZ f (map g l) = sumZ (fun a => f (g a)) l.
Proof. induction l as [|a l IH]; simpl; [reflexivity | now rewrite IH]. Qed.

Section GroupFacts.

Context {A K : Type} {HK : Key K}.
Variable key : A -> K.

Lemma keqb_refl (k : K) : keqb k k = true.
Proof. now apply keqb_eq. Qed.

Lemma keqb_false (a b : K) : keqb a b = false <-> a <> b.
Proof.
  split.
  - intros E Hab. apply keqb_eq in Hab. congruence.
  - intros N. destruct (keqb a b) eqn:E; [|reflexivity].
    apply keqb_eq in E. contradiction.
Qed.

Lemma existsb_keqb (k : K) (ks : list K) :
  existsb (keqb k) ks = true <-> In k ks.
Proof.
  rewrite existsb_exists. split.
  - intros (x & Hx & E). apply keqb_eq in E. now subst.
  - intros Hk. exists k. split; [assumption | apply keqb_refl].
Qed.

Lemma add_to_group_keys (a : A) (gs : list (K * list A)) :
  map fst (add_to_group key a gs) =
    if existsb (keqb (key a)) (map fst gs) then map fst gs
    else map fst gs ++ [key a].
Proof.
  induction gs as [|[k g] rest IH]; simpl; [reflexivity|].
  destruct (keqb (key a) k); simpl; [reflexivity|].
  rewrite IH. now destruct (existsb _ _).
Qed.

Lemma add_to_group_In (a : A) (gs : list (K * list A)) :
  NoDup (map fst gs) ->
  forall k g, In (k, g) (add_to_group key a gs) ->
    (keqb (key a) k = false /\ In (k, g) gs)
    \/ (k = key a
        /\ exists g0, g = g0 ++ [a]
             /\ (In (k, g0) gs \/ (g0 = [] /\ ~ In k (map fst gs)))).
Proof.
  induction gs as [|[k1 g1] rest IH]; simpl; intros ND k g Hin.
  - destruct Hin as [E|[]]. inversion E; subst.
    right. split; [reflexivity|]. exists []. auto.
  - inversion ND as [|? ? Hk1 ND']; subst.
    destruct (keqb (key a) k1) eqn:E.
    + apply keqb_eq in E. subst k1.
      destruct Hin as [E'|Hin].
      * inversion E'; subst. right. split; [reflexivity|]. exists g1. auto.
      * left. split; [|now right].
        apply keqb_false. intros Hk. subst k. apply Hk1.
        apply in_map_iff. exists (key a, g). auto.
    + destruct Hin as [E'|Hin].
      * inversion E'; subst. left. auto.
      * destruct (IH ND' k g Hin) as [[F I]|[-> (g0 & -> & [I|[-> N]])]].
        -- left. auto.
        -- right. split; [reflexivity|]. exists g0. auto.
        -- right. split; [reflexivity|]. exists []. split; [reflexivity|].
           right. split; [reflexivity|].
           intros [E1|I]; [|contradiction].
           subst k1. rewrite keqb_refl in E. discriminate.
Qed.

Lemma collect_snoc (l : list A) (a : A) :
  collect key (l ++ [a]) = add_to_group key a (collect key l).
Proof. unfold collect. now rewrite fold_left_app. Qed.

Lemma filter_absent_key (k : K) (l : list A) :
  ~ In k (map key l) -> filter (key_is key k) l = [].
Proof.
  induction l as [|x l IH]; simpl; intros N; [reflexivity|].
  unfold key_is at 1. destruct (keqb (key x) k) eqn:E.
  - apply keqb_eq in E. tauto.
  - apply IH. tauto.
Qed.

(** The groups that one pass collects: distinct keys, the keys of the
    rows, and under each key the rows that have it, in row order. *)
Lemma collect_spec (l : list A) :
  NoDup (map fst (collect key l))
  /\ (forall k, In k (map fst (collect key l)) <-> In k (map key l))
  /\ (forall k g, In (k, g) (collect key l) -> g = filter (key_is key k) l).
Proof.
  induction l as [|a l (ND & Keys & Groups)] using rev_ind.
  - repeat split; simpl; try constructor; tauto.
  - rewrite collect_snoc.
    assert (Keys' : forall k,
      In k (map fst (add_to_group key a (collect key l)))
      <-> In k (map key (l ++ [a]))).
    { intros k. rewrite add_to_group_keys, map_app, in_app_iff. simpl.
      destruct (existsb _ _) eqn:E.
      - apply existsb_keqb in E. rewrite Keys. rewrite Keys in E.
        split; [tauto|]. intros [I|[<-|[]]]; assumption.
      - rewrite in_app_iff, Keys. simpl. tauto. }
    repeat split.
    + rewrite add_to_group_keys. destruct (existsb _ _) eqn:E; [assumption|].
      apply NoDup_app; [assumption | repeat constructor; simpl; tauto |].
      intros k I [<-|[]].
      apply existsb_keqb in I. congruence.
    + apply Keys'.
    + apply Keys'.
    + intros k g Hin. rewrite filter_app. simpl. unfold key_is at 2.
      destruct (add_to_group_In a _ ND k g Hin)
        as [[F I]|[-> (g0 & -> & [I|[-> N]])]].
      * rewrite F, app_nil_r. now apply Groups.
      * rewrite keqb_refl. f_equal. now apply Groups.
      * rewrite keqb_refl. f_equal. symmetry.
        apply filter_absent_key. now rewrite <- Keys.
Qed.

Lemma groupby_perm (l : list A) : Permutation (groupby key l) (collect key l).
Proof. apply sort_by_perm. Qed.

Lemma groupby_keys_nodup (l : list A) : NoDup (map fst (groupby key l)).
Proof.
  apply Permutation_NoDup with (l := map fst (collect key l)).
  - apply Permutation_map. symmetry. apply groupby_perm.
  - apply collect_spec.
Qed.

Lemma groupby_keys (l : list A) (k : K) :
  In k (map fst (groupby key l)) <-> In k (map key l).
Proof.
  destruct (collect_spec l) as (_ & Keys & _). rewrite <- Keys.
  split; apply Permutation_in; apply Permutation_map;
    [apply groupby_perm | symmetry; apply groupby_perm].
Qed.

Lemma groupby_group (l : list A) (k : K) (g : list A) :
  In (k, g) (groupby key l) -> g = filter (key_is key k) l.
Proof.
  intros I. destruct (collect_spec l) as (_ & _ & Groups).
  apply Groups. revert I. apply Permutation_in, groupby_perm.
Qed.

(** A key of the table has its group. *)
Lemma groupby_has (l : list A) (k : K) :
  In k (map key l) -> In (k, filter (key_is key k) l) (groupby key l).
Proof.
  intros I. apply groupby_keys in I. apply in_map_iff in I.
  destruct I as ([k' g] & E & I). simpl in E. subst k'.
  now rewrite <- (groupby_group l k g I).
Qed.

Lemma add_to_group_sum (f : A -> Z) (a : A) (gs : list (K * list A)) :
  sumZ (fun g => sumZ f (snd g)) (add_to_group key a gs)
  = sumZ (fun g => sumZ f (snd g)) gs + f a.
Proof.
  induction gs as [|[k g] rest IH]; simpl; [lia|].
  destruct (keqb (key a) k); simpl.
  - rewrite sumZ_app. simpl. lia.
  - rewrite IH. lia.
Qed.

(** The groups partition the table: the group sums add up to the sum
    over all rows. *)
Lemma groupby_sum (f : A -> Z) (l : list A) :
  sumZ (fun g => sumZ f (snd g)) (groupby key l) = sumZ f l.
Proof.
  rewrite (sumZ_perm _ _ _ (groupby_perm l)).
  induction l as [|a l IH] using rev_ind; [reflexivity|].
  rewrite collect_snoc, add_to_group_sum, IH, sumZ_app. simpl. lia.
Qed.

End GroupFacts.

(** ** Arithmetic of the float columns *)


Lemma Qeq_bool_inject_Z (z : Z) : Qeq_bool (inject_Z z) 0 = (z =? 0).
Proof. unfold Qeq_bool, inject_Z. simpl. now rewrite Z.mul_1_r. Qed.








(** ** The aggregations *)

Lemma totals_by_keys {K} `{Key K} (key : Row -> K) (l : list Row) :
  map t_key (totals_by key l) = map fst (groupby key l).
Proof. unfold totals_by. rewrite map_map. reflexivity. Qed.

Lemma totals_by_spec {K} `{Key K} (key : Row -> K) (l : list Row) :
  Forall (fun t =>
            t_sales t = sumZ sales (filter (key_is key (t_key t)) l)
            /\ t_cost t = sumZ cost (filter (key_is key (t_key t)) l)
            /\ t_profit t = sumZ profit (filter (key_is key (t_key t)) l)
            /\ profit_margin t = round2 (margin_raw (t_profit t) (t_sales t)))
    (totals_by key l).
Proof.
  apply Forall_forall. intros t I. unfold totals_by in I.
  apply in_map_iff in I. destruct I as ([k g] & <- & I).
  apply groupby_group in I. subst g. cbn [t_key t_sales t_cost t_profit
    profit_margin fst snd]. auto.
Qed.


Section AggregationFacts.

Variable np : NumPy.

(** C5.  Cell 11 binds [region_summary] to one entry per region of the
    table, and the sales, cost and profit of an entry are the sums of those
    columns over the rows of [df] whose region is the entry's key. *)
Theorem region_summary_sums (s : NB np) (d : DataFrame) :
  v_df s = Some d ->
  exists rs,
    v_region_summary (step np C11 s) = Some rs
    /\ result np C11 s = OK [OTotals rs]
    /\ NoDup (map t_key rs)
    /\ (forall k, In k (map t_key rs) <-> In k (map region (body d)))
    /\ Forall (fun t =>
                 t_sales t = sumZ sales (filter (region_is (t_key t)) (body d))
                 /\ t_cost t = sumZ cost (filter (region_is (t_key t)) (body d))
                 /\ t_profit t = sumZ profit (filter (region_is (t_key t)) (body d)))
         rs.
Proof.
  intros Hd. exists (totals_by region (body d)).
  split; [run_cell_cases; now rewrite Hd|].
  split; [run_cell_cases; now rewrite Hd|].
  split; [rewrite totals_by_keys; apply groupby_keys_nodup|].
  split; [intros k; rewrite totals_by_keys; apply groupby_keys|].
  eapply Forall_impl; [|apply totals_by_spec].
  intros t (Hs & Hc & Hp & _). auto.
Qed.



End AggregationFacts.

(** ** The pivot table *)

Section AssocFacts.

Context {K V : Type} {HK : Key K}.

Lemma assoc_In (k : K) (v : V) (l : list (K * V)) :
  NoDup (map fst l) -> In (k, v) l -> assoc k l = Some v.
Proof.
  induction l as [|[k' v'] l IH]; simpl; intros ND I; [contradiction|].
  inversion ND as [|? ? N ND']; subst.
  destruct I as [E|I].
  - inversion E; subst. now rewrite keqb_refl.
  - destruct (keqb k k') eqn:E; [|now apply IH].
    apply keqb_eq in E. subst k'. exfalso. apply N.
    apply in_map_iff. exists (k, v). auto.
Qed.

Lemma assoc_None (k : K) (l : list (K * V)) :
  ~ In k (map fst l) -> assoc k l = None.
Proof.
  induction l as [|[k' v'] l IH]; simpl; intros N; [reflexivity|].
  destruct (keqb k k') eqn:E.
  - apply keqb_eq in E. subst k'. tauto.
  - apply IH. tauto.
Qed.

Lemma assoc_map_self (f : K -> V) (k : K) (ks : list K) :
  In k ks -> assoc k (map (fun x => (x, f x)) ks) = Some (f k).
Proof.
  induction ks as [|k' ks IH]; simpl; intros I; [contradiction|].
  destruct (keqb k k') eqn:E.
  - apply keqb_eq in E. now subst k'.
  - apply IH. destruct I as [->|I]; [|assumption].
    rewrite keqb_refl in E. discriminate.
Qed.

Lemma assoc_map_values {W} (f : V -> W) (k : K) (l : list (K * V)) :
  assoc k (map (fun kv => (fst kv, f (snd kv))) l) = option_map f (assoc k l).
Proof.
  induction l as [|[k' v'] l IH]; simpl; [reflexivity|].
  now destruct (keqb k k').
Qed.

Lemma unique_sorted_In (k : K) (ks : list K) : In k (unique_sorted ks) <-> In k ks.
Proof.
  unfold unique_sorted. rewrite (groupby_keys (fun x => x)). now rewrite map_id.
Qed.

Lemma In_key_dec (k : K) (ks : list K) : In k ks \/ ~ In k ks.
Proof.
  destruct (existsb (keqb k) ks) eqn:E.
  - left. now apply existsb_keqb.
  - right. intros I. apply existsb_keqb in I. congruence.
Qed.

End AssocFacts.

Lemma pivot_get_unstack (l : list (string * string * fval)) (r c : string) :
  In r (map (fun e => fst (fst e)) l) ->
  In c (map (fun e => snd (fst e)) l) ->
  pivot_get (unstack l) r c
  = Some (match assoc (r, c) l with Some v => v | None => NaN end).
Proof.
  intros Hr Hc. unfold pivot_get, unstack.
  rewrite (assoc_map_self
             (fun r => map (fun c => (c, match assoc (r, c) l with
                                         | Some v => v
                                         | None => NaN
                                         end))
                         (unique_sorted (map (fun e => snd (fst e)) l)))).
  - rewrite (assoc_map_self
               (fun c => match assoc (r, c) l with Some v => v | None => NaN end)).
    + reflexivity.
    + now apply unique_sorted_In.
  - now apply unique_sorted_In.
Qed.

Lemma pivot_get_round2 (pv : Pivot) (r c : string) :
  pivot_get (pivot_round2 pv) r c = option_map round2 (pivot_get pv r c).
Proof.
  unfold pivot_get, pivot_round2.
  rewrite (assoc_map_values
             (fun cells => map (fun cv => (fst cv, round2 (snd cv))) cells)).
  destruct (assoc r pv) as [cells|]; simpl; [|reflexivity].
  apply assoc_map_values.
Qed.

Lemma grouped_mean_lookup (l : list Row) (r p : string) :
  match assoc (r, p)
          (map (fun g => (fst g, mean profit (snd g)))
             (groupby (fun x => (region x, product x)) l)) with
  | Some v => v
  | None => NaN
  end = mean profit (filter (region_product_is r p) l).
Proof.
  set (key := fun x : Row => (region x, product x)).
  change (region_product_is r p) with (key_is key (r, p)).
  rewrite (assoc_map_values (mean profit)).
  destruct (In_key_dec (r, p) (map key l)) as [I|N].
  - rewrite (assoc_In _ _ _ (groupby_keys_nodup key l) (groupby_has key l _ I)).
    reflexivity.
  - rewrite assoc_None, (filter_absent_key key _ _ N); [reflexivity|].
    now rewrite groupby_keys.
Qed.

Section PivotFacts.

Variable np : NumPy.


End PivotFacts.

(** ** The growth rate *)



Section GrowthFacts.

Variable np : NumPy.


End GrowthFacts.

(** ** What the result of a cell depends on *)

Section Dependencies.

Variable np : NumPy.

Lemma six_column_results (s1 s2 : NB np) :
  table np s1 = table np s2 ->
  Forall (fun c => result np c s1 = result np c s2) six_column_cells.
Proof.
  unfold table. intros Ht.
  destruct (v_df s1) as [d1|] eqn:E1, (v_df s2) as [d2|] eqn:E2;
    simpl in Ht; try discriminate.
  - inversion Ht as [Hb].
    repeat constructor; run_cell_cases; rewrite E1, E2;
      cbn [fst snd body extra]; rewrite ?Hb; reflexivity.
  - repeat constructor; run_cell_cases; rewrite E1, E2; reflexivity.
Qed.

Lemma run_all_results (s1 s2 : NB np) :
  v_df s1 = v_df s2 ->
  v_products s1 = v_products s2 ->
  snd (run_all np analysis_cells s1) = snd (run_all np analysis_cells s2).
Proof.
  destruct s1 as [r1 d1 p1 rs1 pv1 ms1 pp1 pa1 wp1].
  destruct s2 as [r2 d2 p2 rs2 pv2 ms2 pp2 pa2 wp2].
  cbn [v_df v_products]. intros <- <-.
  destruct d1 as [d|]; [|reflexivity].
  unfold analysis_cells, run_all.
  run_cell_cases.
  repeat (split_match; nb_simpl); reflexivity.
Qed.

(** Run All from any two namespaces shows the same results: cell 3 binds
    the same [df] and [products] in both, and the rest follows from them. *)
Lemma run_all_deterministic (s1 s2 : NB np) :
  snd (run_all np notebook s1) = snd (run_all np notebook s2).
Proof.
  unfold notebook.
  pose proof (cell3_df np s1) as (D1 & P1 & R1).
  pose proof (cell3_df np s2) as (D2 & P2 & R2).
  unfold step in D1, P1, D2, P2. unfold result in R1, R2.
  cbn [run_all]. unfold bind at 1 3.
  destruct (run_cell np C3 s1) as [t1 o1], (run_cell np C3 s2) as [t2 o2].
  cbn [fst snd] in *. subst o1 o2.
  assert (E : snd (run_all np analysis_cells t1) = snd (run_all np analysis_cells t2))
    by (apply run_all_results; congruence).
  unfold bind, ret.
  destruct (run_all np analysis_cells t1) as [u1 [os1|e1]],
           (run_all np analysis_cells t2) as [u2 [os2|e2]];
    cbn [snd] in *; congruence.
Qed.

(** C3, as amended.  The results of cells 9 to 14, 21 to 23, 25 and 28
    are functions of the six columns of the table alone.  The other cells
    read what earlier cells bound, cell 20 the ['month'] column that cell 13
    adds to [df]; run in notebook order, the results of all the analysis
    cells are determined by [df] and [products] as cell 3 binds them. *)
Theorem results_depend_on_reads (s1 s2 : NB np) :
  table np s1 = table np s2 ->
  Forall (fun c => result np c s1 = result np c s2) six_column_cells
  /\ (v_df s1 = v_df s2 ->
      v_products s1 = v_products s2 ->
      snd (run_all np analysis_cells s1) = snd (run_all np analysis_cells s2)).
Proof.
  intros Ht. split.
  - now apply six_column_results.
  - apply run_all_results.
Qed.

End Dependencies.

(** ** The development at work on the sample instance *)

(** C2, the claim as stated fails: cell 13 runs after [df] is built, and
    [df] has one more column after it than before. *)
Lemma cell13_changes_df :
  option_map columns (v_df Sample.generated) = Some base_columns
  /\ option_map columns (v_df (step Sample.numpy C13 Sample.generated))
     = Some (base_columns ++ ["month"])
  /\ v_df (step Sample.numpy C13 Sample.generated) <> v_df Sample.generated.
Proof.
  assert (H1 : option_map columns (v_df Sample.generated) = Some base_columns)
    by (vm_compute; reflexivity).
  assert (H2 : option_map columns (v_df (step Sample.numpy C13 Sample.generated))
               = Some (base_columns ++ ["month"]))
    by (vm_compute; reflexivity).
  split; [exact H1 | split; [exact H2 |]].
  intros E. rewrite E, H1 in H2. discriminate H2.
Qed.

(** C3, the claim as stated fails: two namespaces hold the same table from
    cell 3, one has run cell 13 and the other has not, and cell 20 draws
    its chart in the first and raises a [KeyError] in the second. *)
Lemma cell20_needs_cell13 :
  table Sample.numpy Sample.generated = table Sample.numpy Sample.with_month
  /\ result Sample.numpy C20 Sample.generated = Raise (KeyError "month")
  /\ (exists o, result Sample.numpy C20 Sample.with_month = OK o)
  /\ result Sample.numpy C20 Sample.generated
     <> result Sample.numpy C20 Sample.with_month.
Proof.
  assert (H1 : result Sample.numpy C20 Sample.generated = Raise (KeyError "month"))
    by (vm_compute; reflexivity).
  assert (H2 : exists o, result Sample.numpy C20 Sample.with_month = OK o)
    by (eexists; vm_compute; reflexivity).
  split; [vm_compute; reflexivity|].
  split; [exact H1 | split; [exact H2 |]].
  intros E. destruct H2 as (o & H2). rewrite H1, H2 in E. discriminate E.
Qed.


(** The seed matters: the loop alone, started from two generator states,
    builds two different tables. *)
Example unseeded_loop_depends_on_state :
  map sales (firstn 3 (data Sample.numpy
                         (fst (gen_loop Sample.numpy (Build_GenState Sample.numpy 1 [])))))
  <> map sales (firstn 3 (data Sample.numpy
                            (fst (gen_loop Sample.numpy (Build_GenState Sample.numpy 2 []))))).
Proof. vm_compute. discriminate. Qed.

(** The amended C2 at cell 13 of the sample run. *)
Lemma df_written_only_by_cell13_witness :
  v_df (step Sample.numpy C13 Sample.generated) = Some (add_month Sample.df0)
  /\ body (add_month Sample.df0) = body Sample.df0
  /\ columns (add_month Sample.df0) = base_columns ++ ["month"].
Proof.
  apply (df_written_only_by_cell13 Sample.numpy C13 Sample.generated Sample.df0).
  - discriminate.
  - vm_compute. reflexivity.
Defined.

(** The amended C3 on the two sample namespaces: they hold the same six
    columns, and differ in the ['month'] column. *)
Lemma results_depend_on_reads_witness :
  Forall (fun c => result Sample.numpy c Sample.generated
                   = result Sample.numpy c Sample.with_month)
    six_column_cells
  /\ (v_df Sample.generated = v_df Sample.with_month ->
      v_products Sample.generated = v_products Sample.with_month ->
      snd (run_all Sample.numpy analysis_cells Sample.generated)
      = snd (run_all Sample.numpy analysis_cells Sample.with_month)).
Proof.
  apply (results_depend_on_reads Sample.numpy Sample.generated Sample.with_month).
  vm_compute. reflexivity.
Defined.

(** C5 on the sample table. *)
Lemma region_summary_sums_witness :
  exists rs,
    v_region_summary (step Sample.numpy C11 Sample.generated) = Some rs
    /\ result Sample.numpy C11 Sample.generated = OK [OTotals rs]
    /\ NoDup (map t_key rs)
    /\ (forall k, In k (map t_key rs) <-> In k (map region (body Sample.df0)))
    /\ Forall (fun t =>
                 t_sales t
                 = sumZ sales (filter (region_is (t_key t)) (body Sample.df0))
                 /\ t_cost t
                    = sumZ cost (filter (region_is (t_key t)) (body Sample.df0))
                 /\ t_profit t
                    = sumZ profit (filter (region_is (t_key t)) (body Sample.df0)))
         rs.
Proof.
  apply (region_summary_sums Sample.numpy Sample.generated Sample.df0).
  vm_compute. reflexivity.
Defined.




(** * More of the notebook *)

(** ** The keys of a group-by *)

Section GroupKeys.

Context {A K : Type} {HK : Key K}.
Variable key : A -> K.

(** Which groups there are depends on the key column alone. *)
Lemma collect_keys_map (l : list A) :
  map fst (collect key l) = map fst (collect (fun k => k) (map key l)).
Proof.
  induction l as [|a l IH] using rev_ind; [reflexivity|].
  rewrite map_app. cbn [map]. rewrite !collect_snoc, !add_to_group_keys, IH.
  reflexivity.
Qed.

Lemma insert_by_map_fst (g : K * list A) (gs : list (K * list A)) :
  map fst (insert_by (fun g1 g2 => kleb (fst g1) (fst g2)) g gs)
  = insert_by kleb (fst g) (map fst gs).
Proof.
  induction gs as [|h t IH]; simpl; [reflexivity|].
  destruct (kleb (fst g) (fst h)); simpl; congruence.
Qed.

Lemma sort_by_map_fst (gs : list (K * list A)) :
  map fst (sort_by (fun g1 g2 => kleb (fst g1) (fst g2)) gs)
  = sort_by kleb (map fst gs).
Proof.
  induction gs as [|h t IH]; simpl; [reflexivity|].
  now rewrite insert_by_map_fst, IH.
Qed.

Lemma groupby_keys_sorted (l : list A) :
  map fst (groupby key l) = sort_by kleb (map fst (collect (fun k => k) (map key l))).
Proof. unfold groupby. now rewrite sort_by_map_fst, collect_keys_map. Qed.

End GroupKeys.

(** The keys of a group-by are the distinct values of the key column,
    sorted. *)
Lemma groupby_keys_unique_sorted {A K} `{Key K} (key : A -> K) (l : list A) :
  map fst (groupby key l) = unique_sorted (map key l).
Proof.
  unfold unique_sorted. rewrite !groupby_keys_sorted. now rewrite map_id.
Qed.

(** ** The summaries of the generated table *)

Lemma map_snd_combine_map {A B} (f : A -> B) (l : list A) :
  map snd (combine l (map f l)) = map f l.
Proof. induction l as [|a l IH]; simpl; congruence. Qed.

Lemma map_fst_combine_map {A B} (f : A -> B) (l : list A) :
  map fst (combine l (map f l)) = l.
Proof. induction l as [|a l IH]; simpl; congruence. Qed.

(** A pivot is rectangular: its rows are labelled by the distinct index
    values, sorted, and every row carries the distinct column values,
    sorted. *)
Lemma unstack_labels (l : list (string * string * fval)) :
  map (fun rc => (fst rc, map fst (snd rc))) (unstack l)
  = map (fun r => (r, unique_sorted (map (fun e => snd (fst e)) l)))
      (unique_sorted (map (fun e => fst (fst e)) l)).
Proof.
  unfold unstack. rewrite map_map. apply map_ext. intros r. cbn [fst snd].
  f_equal. rewrite map_map. cbn [fst]. apply map_id.
Qed.

Lemma pivot_round2_labels (pv : Pivot) :
  map (fun rc => (fst rc, map fst (snd rc))) (pivot_round2 pv)
  = map (fun rc => (fst rc, map fst (snd rc))) pv.
Proof.
  unfold pivot_round2. rewrite map_map. apply map_ext. intros rc. cbn [fst snd].
  f_equal. rewrite map_map. reflexivity.
Qed.

Section SummaryShapes.

Variable np : NumPy.

(** A column of the generated table that is read off the key of a row is
    the same for every sampler. *)
Lemma generated_key_column {B} (f : string * string * Timestamp -> B) :
  map (fun r => f (key3 r)) (generated_rows np) = map f combos.
Proof. now rewrite <- (map_map key3 f), generated_rows_keys. Qed.

Lemma generated_regions :
  map region (generated_rows np) = map (fun k => fst (fst k)) combos.
Proof. apply (generated_key_column (fun k => fst (fst k))). Qed.

Lemma generated_products :
  map product (generated_rows np) = map (fun k => snd (fst k)) combos.
Proof. apply (generated_key_column (fun k => snd (fst k))). Qed.

Lemma generated_region_products :
  map (fun r => (region r, product r)) (generated_rows np) = map fst combos.
Proof. apply (generated_key_column fst). Qed.

Lemma generated_months :
  map (fun r => strftime_Ym (date r)) (generated_rows np)
  = map (fun k => strftime_Ym (snd k)) combos.
Proof. apply (generated_key_column (fun k => strftime_Ym (snd k))). Qed.

Lemma generated_month_products :
  map (fun r => (strftime_Ym (date r), product r)) (generated_rows np)
  = map (fun k => (strftime_Ym (snd k), snd (fst k))) combos.
Proof.
  apply (generated_key_column (fun k => (strftime_Ym (snd k), snd (fst k)))).
Qed.

(** Whatever the sampler draws, the summaries of the generated table have
    the same rows in the same order: four regions in alphabetical order,
    the twelve months of 2023, the three products, twelve region-product
    totals, and a pivot table of four rows by three columns. *)
Theorem summary_rows_of_generated (s : NB np) (cs : list Cell) :
  option_map (map t_key)
    (v_region_summary (step np C11 (exec np (C3 :: cs) s)))
  = Some ["East"; "North"; "South"; "West"]
  /\ option_map (fun f => map m_month (body f))
       (v_monthly_sales (step np C13 (exec np (C3 :: cs) s)))
     = Some ["2023-01"; "2023-02"; "2023-03"; "2023-04"; "2023-05"; "2023-06";
             "2023-07"; "2023-08"; "2023-09"; "2023-10"; "2023-11"; "2023-12"]
  /\ option_map (map pp_product)
       (v_product_profit (step np C14 (exec np (C3 :: cs) s)))
     = Some ["Product A"; "Product B"; "Product C"]
  /\ option_map (fun pa => List.length pa)
       (v_profit_analysis (step np C25 (exec np (C3 :: cs) s)))
     = Some 12%nat
  /\ option_map (map (fun rc => (fst rc, map fst (snd rc))))
       (v_pivot_table (step np C12 (exec np (C3 :: cs) s)))
     = Some [("East", ["Product A"; "Product B"; "Product C"]);
             ("North", ["Product A"; "Product B"; "Product C"]);
             ("South", ["Product A"; "Product B"; "Product C"]);
             ("West", ["Product A"; "Product B"; "Product C"])].
Proof.
  destruct (exec_from_cell3 np cs s) as (d & Hd & Hb).
  repeat apply conj; run_cell_cases; rewrite Hd; nb_simpl; cbn [option_map];
    nb_simpl; f_equal.
  - rewrite totals_by_keys, groupby_keys_unique_sorted, Hb, generated_regions.
    vm_compute. reflexivity.
  - unfold monthly_totals. rewrite map_map. cbn [m_month].
    rewrite (groupby_keys_unique_sorted snd), map_snd_combine_map, Hb,
      generated_months.
    vm_compute. reflexivity.
  - unfold with_contribution, profit_by_product. rewrite !map_map.
    cbn [pp_product fst].
    rewrite (groupby_keys_unique_sorted product), Hb, generated_products.
    vm_compute. reflexivity.
  - rewrite (Permutation_length (sort_by_perm _ _)).
    rewrite <- (length_map t_key), totals_by_keys, groupby_keys_unique_sorted,
      Hb, generated_region_products.
    vm_compute. reflexivity.
  - rewrite pivot_round2_labels. unfold pd_pivot_table.
    rewrite unstack_labels, !map_map. cbn [fst snd].
    rewrite <- !(map_map fst (fun k : string * string => fst k)).
    rewrite <- !(map_map fst (fun k : string * string => snd k)).
    rewrite (groupby_keys_unique_sorted (fun r => (region r, product r))), Hb,
      generated_region_products.
    vm_compute. reflexivity.
Qed.

End SummaryShapes.

(** ** Selecting rows *)

Lemma combine_nil_r {A B} (l : list A) : combine l (@nil B) = [].
Proof. now destruct l. Qed.

Lemma filter_pairs_aligned {R E} (p : R -> bool) (l : list R) (col : list E) :
  combine (filter p l)
    (map snd (filter (fun re => p (fst re)) (combine l col)))
  = filter (fun re => p (fst re)) (combine l col).
Proof.
  revert col. induction l as [|a l IH]; intros col; [reflexivity|].
  destruct col as [|c col]; cbn [combine filter fst map].
  - apply combine_nil_r.
  - destruct (p a); cbn [combine map snd]; now rewrite IH.
Qed.

(** Selecting rows by a mask, or taking the head, keeps every kept row with
    its own value of the added column: pairing after the selection gives
    the selected pairs. *)
Theorem selection_keeps_rows_aligned {R E} (name : string) (p : R -> bool)
    (n : nat) (f : Frame R E) (pairs : list (R * E)) :
  with_extra name f = OK pairs ->
  with_extra name (frame_filter p f) = OK (filter (fun re => p (fst re)) pairs)
  /\ with_extra name (frame_head n f) = OK (firstn n pairs).
Proof.
  unfold with_extra, frame_filter, frame_head. destruct (extra f) as [col|];
    [|discriminate].
  intros Hp. inversion Hp; subst pairs. cbn [extra body option_map]. split.
  - now rewrite filter_pairs_aligned.
  - now rewrite combine_firstn.
Qed.

Lemma filter_length_by_key (q : string * string * Timestamp -> bool) (l : list Row) :
  List.length (filter (fun r => q (key3 r)) l)
  = List.length (filter q (map key3 l)).
Proof.
  induction l as [|r l IH]; simpl; [reflexivity|].
  destruct (q (key3 r)); simpl; congruence.
Qed.

Lemma frame_filter_ext {R E} (p q : R -> bool) (f : Frame R E) :
  (forall r, In r (body f) -> p r = q r) ->
  frame_filter p f = frame_filter q f.
Proof.
  intros H. unfold frame_filter. f_equal.
  - now apply filter_ext_in.
  - destruct (extra f) as [col|]; [|reflexivity]. cbn [option_map].
    do 2 f_equal. apply filter_ext_in. intros [r e] I. cbn [fst].
    apply H. eapply in_combine_l, I.
Qed.

(** In 2023, a month end lies between the 1st of January and the 31st of
    March exactly when its month is 1, 2 or 3. *)
Lemma first_quarter_months :
  forallb (fun k =>
             Bool.eqb
               (ts_leb {| year := 2023; month := 1; day := 1 |} (snd k)
                && ts_leb (snd k) {| year := 2023; month := 3; day := 31 |})
               (Z.leb 1 (month (snd k)) && Z.leb (month (snd k)) 3))
    combos = true.
Proof. vm_compute. reflexivity. Qed.

Section Selections.

Variable np : NumPy.

(** Whatever the sampler draws, and whether or not the ['month'] column has
    been added, the North selection of cell 6 has 36 rows, the selection of
    Product A in the South of cell 7 has 12, and the first quarter of
    cell 8 has 36: the rows of January to March, the 31st of March
    included. *)
Theorem selection_shapes (s : NB np) (cs : list Cell) :
  exists d,
    v_df (exec np (C3 :: cs) s) = Some d
    /\ result np C6 (exec np (C3 :: cs) s)
       = OK [OShape 36 (List.length (columns d));
             OFrame (frame_head 5
                       (frame_filter (fun r => String.eqb (region r) "North") d))]
    /\ result np C7 (exec np (C3 :: cs) s)
       = OK [OShape 12 (List.length (columns d));
             OFrame (frame_head 5
                       (frame_filter
                          (fun r => String.eqb (product r) "Product A"
                                    && String.eqb (region r) "South") d))]
    /\ result np C8 (exec np (C3 :: cs) s)
       = OK [OShape 36 (List.length (columns d));
             OFrame (frame_head 5
                       (frame_filter
                          (fun r => Z.leb 1 (month (date r))
                                    && Z.leb (month (date r)) 3) d))].
Proof.
  destruct (exec_from_cell3 np cs s) as (d & Hd & Hb).
  exists d. split; [exact Hd|].
  assert (Hcols : forall p, columns (frame_filter p d) = columns d).
  { intros p. unfold columns, frame_filter. cbn [extra].
    now destruct (extra d). }
  assert (Hq : frame_filter
                 (fun r => ts_leb {| year := 2023; month := 1; day := 1 |} (date r)
                           && ts_leb (date r) {| year := 2023; month := 3; day := 31 |})
                 d
               = frame_filter
                   (fun r => Z.leb 1 (month (date r)) && Z.leb (month (date r)) 3) d).
  { apply frame_filter_ext. intros r I. rewrite Hb in I.
    apply (in_map key3) in I. rewrite generated_rows_keys in I.
    pose proof first_quarter_months as Q. rewrite forallb_forall in Q.
    apply Q in I. cbn [key3 snd] in I. now apply Bool.eqb_prop in I. }
  repeat apply conj; run_cell_cases; rewrite Hd; nb_simpl; unfold shape;
    rewrite ?Hq, Hcols; do 3 f_equal;
    unfold frame_filter; cbn [body]; rewrite Hb.
  - rewrite (filter_length_by_key (fun k => String.eqb (fst (fst k)) "North")),
      generated_rows_keys.
    vm_compute. reflexivity.
  - rewrite (filter_length_by_key
               (fun k => String.eqb (snd (fst k)) "Product A"
                         && String.eqb (fst (fst k)) "South")),
      generated_rows_keys.
    vm_compute. reflexivity.
  - rewrite (filter_length_by_key
               (fun k => Z.leb 1 (month (snd k)) && Z.leb (month (snd k)) 3)),
      generated_rows_keys.
    vm_compute. reflexivity.
Qed.

End Selections.

(** ** Sorted tables *)

Section SortedFacts.

Context {A : Type}.
Variable leb : A -> A -> bool.
Hypothesis leb_total : forall a b, leb a b = true \/ leb b a = true.

Lemma insert_by_hd (R := fun a b => leb a b = true) (x a : A) (l : list A) :
  leb a x = true -> HdRel R a l -> HdRel R a (insert_by leb x l).
Proof.
  intros Hax Hl. destruct l as [|h t]; simpl; [now constructor|].
  destruct (leb x h); constructor; [assumption|].
  now inversion Hl.
Qed.

Lemma insert_by_sorted (x : A) (l : list A) :
  Sorted (fun a b => leb a b = true) l ->
  Sorted (fun a b => leb a b = true) (insert_by leb x l).
Proof.
  induction 1 as [|h t St IH Hd]; simpl.
  - repeat constructor.
  - destruct (leb x h) eqn:E.
    + constructor; [now constructor | now constructor].
    + constructor; [exact IH|].
      apply insert_by_hd; [|exact Hd].
      destruct (leb_total x h); congruence.
Qed.

(** A sort by a total order puts every row before the next. *)
Lemma sort_by_sorted (l : list A) :
  Sorted (fun a b => leb a b = true) (sort_by leb l).
Proof.
  induction l as [|x l IH]; simpl; [constructor|].
  now apply insert_by_sorted.
Qed.

End SortedFacts.

Lemma StronglySorted_app_split {A} (R : A -> A -> Prop) (l1 l2 : list A) :
  StronglySorted R (l1 ++ l2) ->
  StronglySorted R l1 /\ Forall (fun a => Forall (R a) l2) l1.
Proof.
  induction l1 as [|a l1 IH]; simpl; intros H.
  - split; constructor.
  - inversion H as [|? ? Hs Hf]; subst.
    destruct (IH Hs) as (S1 & F1).
    apply Forall_app in Hf. destruct Hf as (Fa1 & Fa2).
    split; constructor; assumption.
Qed.

Lemma StronglySorted_impl {A} (R R' : A -> A -> Prop) (l : list A) :
  (forall a b, R a b -> R' a b) -> StronglySorted R l -> StronglySorted R' l.
Proof.
  intros H. induction 1 as [|a l S IH F]; constructor; [assumption|].
  eapply Forall_impl; [|exact F]. intros b. apply H.
Qed.

Lemma fval_leb_trans (a b c : fval) :
  fval_leb a b = true -> fval_leb b c = true -> fval_leb a c = true.
Proof.
  destruct a, b, c; simpl; try congruence.
  rewrite !Qle_bool_iff. apply Qle_trans.
Qed.

Lemma desc_leb_trans (a b c : fval) :
  desc_leb a b = true -> desc_leb b c = true -> desc_leb a c = true.
Proof.
  unfold desc_leb.
  destruct (is_nan c) eqn:Nc; [reflexivity|].
  destruct (is_nan b) eqn:Nb; [discriminate|].
  destruct (is_nan a) eqn:Na; [discriminate|].
  intros H1 H2. eapply fval_leb_trans; eassumption.
Qed.

Lemma desc_leb_total (a b : fval) : desc_leb a b = true \/ desc_leb b a = true.
Proof.
  unfold desc_leb. destruct a, b; simpl; auto.
  rewrite !Qle_bool_iff. destruct (Qlt_le_dec q q0); [right | left].
  - now apply Qlt_le_weak.
  - assumption.
Qed.

Section SortedCells.

Variable np : NumPy.

(** Cell 10 shows ten rows, or the whole table when it has fewer: they are
    rows of the table in descending order of profit, and no row left out
    has a larger profit than a row shown.  The cell binds nothing. *)
Theorem top_profit_largest (s : NB np) (d : DataFrame) :
  v_df s = Some d ->
  exists top rest,
    result np C10 s
    = OK [OTop (map (fun r => (date r, region r, product r, profit r)) top)]
    /\ step np C10 s = s
    /\ Permutation (top ++ rest) (body d)
    /\ List.length top = Nat.min 10 (List.length (body d))
    /\ StronglySorted (fun a b => profit b <= profit a) top
    /\ Forall (fun a => Forall (fun b => profit b <= profit a) rest) top.
Proof.
  intros Hd.
  set (sorted := sort_by (fun a b => profit b <=? profit a) (body d)).
  exists (firstn 10 sorted), (skipn 10 sorted).
  assert (P : Permutation sorted (body d)) by apply sort_by_perm.
  assert (S : StronglySorted (fun a b => profit b <= profit a) sorted).
  { apply StronglySorted_impl
      with (R := fun a b => (profit b <=? profit a) = true).
    - intros a b H. now apply Z.leb_le.
    - apply Sorted_StronglySorted.
      + intros a b c. rewrite !Z.leb_le. lia.
      + apply (sort_by_sorted (fun a b => profit b <=? profit a)).
        intros a b. rewrite !Z.leb_le. lia. }
  rewrite <- (firstn_skipn 10 sorted) in S.
  apply StronglySorted_app_split in S. destruct S as (S1 & S2).
  split; [run_cell_cases; now rewrite Hd|].
  split; [run_cell_cases; now rewrite Hd|].
  split; [now rewrite firstn_skipn|].
  split; [now rewrite length_firstn, (Permutation_length P)|].
  split; assumption.
Qed.

(** Cell 25 binds [profit_analysis] to the totals by region and product,
    none lost and none added, in descending order of margin, the rows
    whose margin is NaN last. *)
Theorem profit_analysis_sorted (s : NB np) (d : DataFrame) :
  v_df s = Some d ->
  exists pa,
    v_profit_analysis (step np C25 s) = Some pa
    /\ result np C25 s = OK [OAnalysis (firstn 5 pa)]
    /\ Permutation pa (totals_by (fun r => (region r, product r)) (body d))
    /\ StronglySorted
         (fun a b => desc_leb (profit_margin a) (profit_margin b) = true) pa.
Proof.
  intros Hd. eexists.
  split; [run_cell_cases; rewrite Hd; reflexivity|].
  split; [run_cell_cases; rewrite Hd; reflexivity|].
  split; [apply sort_by_perm|].
  apply Sorted_StronglySorted.
  - intros a b c. apply desc_leb_trans.
  - apply (sort_by_sorted
             (fun a b : Totals (string * string) =>
                desc_leb (profit_margin a) (profit_margin b))).
    intros a b. apply desc_leb_total.
Qed.

End SortedCells.

(** ** The monthly totals *)

Lemma filter_combine_map {A B} (f : A -> B) (q : B -> bool) (l : list A) :
  map fst (filter (fun re => q (snd re)) (combine l (map f l)))
  = filter (fun a => q (f a)) l.
Proof.
  induction l as [|a l IH]; simpl; [reflexivity|].
  destruct (q (f a)); simpl; congruence.
Qed.

Lemma sumZ_fst {A B} (g : A -> Z) (l : list (A * B)) :
  sumZ (fun re => g (fst re)) l = sumZ g (map fst l).
Proof. now rewrite sumZ_map. Qed.

Section MonthlyFacts.

Variable np : NumPy.

(** Cell 13 binds [monthly_sales] to one row per month of the table, with
    the sales and the profit summed over the rows of that month; the
    monthly sales add up to the sales of the whole table, and so do the
    profits.  The frame it binds has no growth-rate column, whatever
    [monthly_sales] held before. *)
Theorem monthly_sales_partition (s : NB np) (d : DataFrame) :
  v_df s = Some d ->
  exists ms,
    v_monthly_sales (step np C13 s) = Some {| body := ms; extra := None |}
    /\ result np C13 s = OK [OMonthly ms]
    /\ NoDup (map m_month ms)
    /\ (forall k, In k (map m_month ms) <-> In k (map month_of (body d)))
    /\ Forall (fun m =>
                 m_sales m
                 = sumZ sales
                     (filter (fun r => String.eqb (month_of r) (m_month m)) (body d))
                 /\ m_profit m
                    = sumZ profit
                        (filter (fun r => String.eqb (month_of r) (m_month m))
                           (body d)))
         ms
    /\ sumZ m_sales ms = sumZ sales (body d)
    /\ sumZ m_profit ms = sumZ profit (body d).
Proof.
  intros Hd.
  set (keyed := combine (body d) (map month_of (body d))).
  exists (monthly_totals keyed).
  assert (K : map m_month (monthly_totals keyed) = map fst (groupby snd keyed)).
  { unfold monthly_totals. now rewrite map_map. }
  split; [run_cell_cases; rewrite Hd; reflexivity|].
  split; [run_cell_cases; rewrite Hd; reflexivity|].
  split; [rewrite K; apply groupby_keys_nodup|].
  split.
  { intros k. rewrite K, groupby_keys. unfold keyed.
    now rewrite map_snd_combine_map. }
  split.
  { apply Forall_forall. intros m I. unfold monthly_totals in I.
    apply in_map_iff in I. destruct I as ([k g] & <- & I).
    apply groupby_group in I. subst g. cbn [m_month m_sales m_profit fst snd].
    unfold keyed, key_is. rewrite !sumZ_fst.
    change (fun a : Row * string => keqb (snd a) k)
      with (fun a : Row * string => (fun x => String.eqb x k) (snd a)).
    rewrite (filter_combine_map month_of (fun x => String.eqb x k)).
    split; reflexivity. }
  unfold monthly_totals. rewrite !sumZ_map. cbn [m_sales m_profit].
  rewrite (groupby_sum snd (fun re => sales (fst re))),
    (groupby_sum snd (fun re => profit (fst re))), !sumZ_fst.
  unfold keyed. now rewrite map_fst_combine_map.
Qed.

End MonthlyFacts.

(** ** Unbound variables, assignments and re-runs *)

Section Namespace.

Variable np : NumPy.

(** A cell whose first variable is unbound raises a [NameError] naming it,
    and leaves the namespace as it found it. *)
Theorem unbound_variable_raises (c : Cell) (s : NB np) (v : Var) :
  first_read c = Some v ->
  bound s v = false ->
  result np c s = Raise (NameError (var_name v)) /\ step np c s = s.
Proof.
  intros Hr Hb.
  destruct c; cbn [first_read] in Hr; inversion Hr; subst v;
    cbn [bound] in Hb; run_cell_cases;
    split_match; cbn [is_some] in Hb; try discriminate Hb; auto.
Qed.

(** A cell changes no variable but those it assigns. *)
Theorem cell_writes_only_what_it_assigns (c : Cell) (s : NB np) (v : Var) :
  ~ In v (assigns c) -> same_value v s (step np c s).
Proof.
  intros Hv.
  destruct c, v; cbn [assigns In] in Hv; try (exfalso; tauto);
    unfold same_value; run_cell_cases; unfold run_loop; nb_simpl;
    repeat (split_match; nb_simpl); congruence.
Qed.

(** Running a cell a second time, right after the first, shows the same
    result and leaves the namespace as the first run left it. *)
Theorem rerun_changes_nothing (c : Cell) (s : NB np) :
  step np c (step np c s) = step np c s
  /\ result np c (step np c s) = result np c s.
Proof.
  destruct s as [g0 d0 ps0 rs0 pv0 ms0 pp0 pa0 wp0].
  destruct c; run_cell_cases; unfold run_loop; nb_simpl;
    repeat (split_match; nb_simpl; cbn [rs data]);
    try congruence; split; first [reflexivity | congruence].
Qed.

End Namespace.

(** ** Best and worst performers *)

Lemma first_max_none {A} (f : A -> Z) (l : list A) :
  first_max f l = None -> l = [].
Proof.
  destruct l as [|a l]; [reflexivity|]. simpl.
  destruct (first_max f l) as [b|]; [|discriminate].
  destruct (f a <? f b); discriminate.
Qed.

(** [first_max] returns a row of the list at which [f] is largest. *)
Lemma first_max_spec {A} (f : A -> Z) (l : list A) (a : A) :
  first_max f l = Some a -> In a l /\ Forall (fun b => f b <= f a) l.
Proof.
  revert a. induction l as [|x l IH]; simpl; intros a H; [discriminate|].
  destruct (first_max f l) as [b|] eqn:E.
  - destruct (IH b eq_refl) as (I & F).
    destruct (f x <? f b) eqn:C; inversion H; subst a.
    + apply Z.ltb_lt in C. split; [now right|].
      constructor; [lia | assumption].
    + apply Z.ltb_ge in C. split; [now left|].
      constructor; [lia|].
      eapply Forall_impl; [|exact F]. intros u Hu. cbn beta in Hu. lia.
  - inversion H; subst a. apply first_max_none in E. subst l.
    split; [now left | repeat constructor; lia].
Qed.

Lemma flat_map_picks {G T} (pick : G -> option T) (R : G -> T -> Prop)
    (gs : list G) :
  Forall (fun g => exists t, pick g = Some t /\ R g t) gs ->
  Forall2 R gs (flat_map (fun g => option_list (pick g)) gs).
Proof.
  induction 1 as [|g gs (t & E & Hr) _ IH]; simpl; [constructor|].
  rewrite E. simpl. now constructor.
Qed.

Lemma Forall2_map_eq {G T K} (kg : G -> K) (kt : T -> K) (R : G -> T -> Prop)
    (gs : list G) (ts : list T) :
  (forall g t, R g t -> kt t = kg g) ->
  Forall2 R gs ts -> map kt ts = map kg gs.
Proof.
  intros H. induction 1 as [|g t gs ts Hr _ IH]; simpl; [reflexivity|].
  now rewrite (H g t Hr), IH.
Qed.

Lemma Forall2_right {G T} (R : G -> T -> Prop) (P : T -> Prop)
    (gs : list G) (ts : list T) :
  (forall g t, In g gs -> R g t -> P t) -> Forall2 R gs ts -> Forall P ts.
Proof.
  intros H F. induction F as [|g t gs ts Hr _ IH]; constructor.
  - apply (H g t); [now left | assumption].
  - apply IH. intros g' t' I. apply H. now right.
Qed.

(** The rows picked from the groups of a table, one per group: a row of
    the group of its key, extreme in it. *)
Lemma picked_per_group {A K} `{Key K} (key : A -> K) (f : A -> Z) (l : list A) :
  Forall2 (fun g t => key t = fst g /\ In t l
                      /\ Forall (fun u => key u = key t -> f u <= f t) l)
    (groupby key l)
    (flat_map (fun g => option_list (first_max f (snd g))) (groupby key l)).
Proof.
  apply (flat_map_picks (fun g => first_max f (snd g))).
  apply Forall_forall. intros [k g] I. cbn [fst snd].
  pose proof (groupby_group key l k g I) as Hg.
  assert (Hk : In k (map key l)).
  { apply groupby_keys. apply in_map_iff. exists (k, g). auto. }
  destruct (first_max f g) as [t|] eqn:E.
  - exists t. split; [reflexivity|].
    destruct (first_max_spec f g t E) as (It & Ft).
    rewrite Hg in It. apply filter_In in It. destruct It as (Il & Kt).
    unfold key_is in Kt. apply keqb_eq in Kt.
    repeat split; [exact Kt | exact Il |].
    apply Forall_forall. intros u Iu Ku.
    rewrite Forall_forall in Ft. apply Ft.
    rewrite Hg. apply filter_In. split; [exact Iu|].
    unfold key_is. apply keqb_eq. congruence.
  - apply first_max_none in E. rewrite Hg in E.
    apply in_map_iff in Hk. destruct Hk as (a & Ka & Ia).
    assert (Hin : In a (filter (key_is key k) l)).
    { apply filter_In. split; [exact Ia|]. unfold key_is. now apply keqb_eq. }
    rewrite E in Hin. contradiction.
Qed.

Section Performers.

Variable np : NumPy.

(** Cell 29 picks, for every region of [profit_analysis] in alphabetical
    order, one row of that region with the largest profit and one with the
    smallest; it shows the first and binds [worst_products] to the
    second. *)
Theorem best_and_worst_per_region (s : NB np)
    (pa : list (Totals (string * string))) :
  v_profit_analysis s = Some pa ->
  exists best worst,
    result np C29 s = OK [OPerformers (performers best)]
    /\ v_worst_products (step np C29 s) = Some worst
    /\ map (fun t => fst (t_key t)) best
       = unique_sorted (map (fun t => fst (t_key t)) pa)
    /\ map (fun t => fst (t_key t)) worst
       = unique_sorted (map (fun t => fst (t_key t)) pa)
    /\ Forall (fun t =>
                 In t pa
                 /\ Forall (fun u => fst (t_key u) = fst (t_key t) ->
                                     t_profit u <= t_profit t) pa) best
    /\ Forall (fun t =>
                 In t pa
                 /\ Forall (fun u => fst (t_key u) = fst (t_key t) ->
                                     t_profit t <= t_profit u) pa) worst.
Proof.
  intros Hpa.
  set (key := fun t : Totals (string * string) => fst (t_key t)).
  pose proof (picked_per_group key t_profit pa) as B.
  pose proof (picked_per_group key (fun t => - t_profit t) pa) as W.
  do 2 eexists.
  split; [run_cell_cases; rewrite Hpa; reflexivity|].
  split; [run_cell_cases; rewrite Hpa; reflexivity|].
  split; [|split; [|split]].
  - rewrite <- groupby_keys_unique_sorted.
    eapply Forall2_map_eq; [|exact B]. intros g t (Hk & _). exact Hk.
  - rewrite <- groupby_keys_unique_sorted.
    eapply Forall2_map_eq; [|exact W]. intros g t (Hk & _). exact Hk.
  - eapply Forall2_right; [|exact B]. intros g t _ (_ & I & F). auto.
  - eapply Forall2_right; [|exact W]. intros g t _ (_ & I & F).
    split; [exact I|]. eapply Forall_impl; [|exact F].
    intros u Hu Ku. specialize (Hu Ku). cbn beta in Hu. lia.
Qed.

End Performers.

(** ** Rounding to two decimals *)

Lemma rint_near (y : Q) :
  (y - (1 # 2) <= inject_Z (rint y) /\ inject_Z (rint y) <= y + (1 # 2))%Q.
Proof.
  unfold rint.
  pose proof (Qfloor_le y) as L. pose proof (Qlt_floor y) as U.
  rewrite inject_Z_plus in U. change (inject_Z 1) with 1%Q in U.
  destruct (Qcompare_spec (y - inject_Z (Qfloor y)) (1 # 2)) as [E|E|E].
  - destruct (Z.even (Qfloor y)).
    + lra.
    + rewrite inject_Z_plus. change (inject_Z 1) with 1%Q. lra.
  - lra.
  - rewrite inject_Z_plus. change (inject_Z 1) with 1%Q. lra.
Qed.

Lemma rint_inject_Z (n : Z) : rint (inject_Z n) = n.
Proof.
  unfold rint. rewrite Qfloor_Z.
  destruct (Qcompare_spec (inject_Z n - inject_Z n) (1 # 2)) as [E|E|E].
  - exfalso. lra.
  - reflexivity.
  - exfalso. lra.
Qed.

Lemma rint_comp (x y : Q) : (x == y)%Q -> rint x = rint y.
Proof.
  intros E. unfold rint. rewrite (Qfloor_comp x y E).
  assert (C : ((x - inject_Z (Qfloor y)) ?= (1 # 2))%Q
              = ((y - inject_Z (Qfloor y)) ?= (1 # 2))%Q).
  { apply Qcompare_comp; [now rewrite E | reflexivity]. }
  now rewrite C.
Qed.

(** [.round(2)] leaves an infinity or a NaN as it is, and moves a number
    to a multiple of a hundredth that is at most half a hundredth away;
    rounding what is already rounded changes nothing. *)
Theorem round2_half_a_hundredth (a : fval) :
  match a with
  | Fin q =>
      exists n,
        round2 a = Fin (Qred (inject_Z n / 100))
        /\ (q - (1 # 200) <= inject_Z n / 100)%Q
        /\ (inject_Z n / 100 <= q + (1 # 200))%Q
  | _ => round2 a = a
  end
  /\ round2 (round2 a) = round2 a.
Proof.
  destruct a as [q| | |]; try (split; reflexivity).
  split.
  - exists (rint (q * 100)). split; [reflexivity|].
    destruct (rint_near (q * 100)) as (L & U).
    assert (D : (inject_Z (rint (q * 100)) / 100
                 == inject_Z (rint (q * 100)) * (1 # 100))%Q) by field.
    rewrite D. split; lra.
  - cbn [round2]. do 3 f_equal.
    rewrite <- (rint_inject_Z (rint (q * 100))) at 2.
    f_equal. apply rint_comp. rewrite Qred_correct. field.
Qed.

(** ** Which months have a growth rate *)




Section ReportedGrowth.

Variable np : NumPy.


End ReportedGrowth.

(** ** The date range *)





(** ** The month key *)

Lemma digit_inj (x y : Z) : digit x = digit y -> x mod 10 = y mod 10.
Proof.
  unfold digit. intros E. inversion E as [H].
  apply (f_equal nat_of_ascii) in H.
  pose proof (Z.mod_pos_bound x 10 ltac:(lia)).
  pose proof (Z.mod_pos_bound y 10 ltac:(lia)).
  rewrite !nat_ascii_embedding in H by lia.
  lia.
Qed.

(** For years of four digits, two dates have the same month key exactly
    when they lie in the same month of the same year: grouping by the key
    is grouping by calendar month. *)
Theorem month_key_identifies_month (a b : Timestamp) :
  1000 <= year a < 10000 -> 1000 <= year b < 10000 ->
  0 <= month a < 100 -> 0 <= month b < 100 ->
  strftime_Ym a = strftime_Ym b <-> year a = year b /\ month a = month b.
Proof.
  intros Ya Yb Ma Mb. split.
  - unfold strftime_Ym. intros E.
    assert (D : digit (year a / 1000) = digit (year b / 1000)
                /\ digit (year a / 100) = digit (year b / 100)
                /\ digit (year a / 10) = digit (year b / 10)
                /\ digit (year a) = digit (year b)
                /\ digit (month a / 10) = digit (month b / 10)
                /\ digit (month a) = digit (month b)).
    { unfold digit in *. cbn [String.append] in E. inversion E.
      repeat split; f_equal; assumption. }
    destruct D as (D1 & D2 & D3 & D4 & D5 & D6).
    apply digit_inj in D1, D2, D3, D4, D5, D6.
    Z.to_euclidean_division_equations. lia.
  - intros (Ey & Em). unfold strftime_Ym. now rewrite Ey, Em.
Qed.

(** ** The chart of cell 20, and Run All *)

Lemma assoc_some {K V} `{Key K} (k : K) (l : list (K * V)) :
  In k (map fst l) -> exists v, assoc k l = Some v.
Proof.
  induction l as [|[k' v] l IH]; simpl; intros I; [contradiction|].
  destruct (keqb k k') eqn:E; [eauto|].
  apply IH. destruct I as [->|I]; [|assumption].
  rewrite keqb_refl in E. discriminate.
Qed.

Lemma pivot_column_ok (pv : Pivot) (c : string) :
  pv <> [] ->
  Forall (fun rc => In c (map fst (snd rc))) pv ->
  exists col, pivot_column pv c = OK col /\ map fst col = map fst pv.
Proof.
  intros N F. destruct pv as [|[r cells] rest]; [contradiction|].
  inversion F as [|? ? Hc _]; subst. cbn [snd] in Hc.
  destruct (assoc_some c cells Hc) as (v & E).
  unfold pivot_column. rewrite E. eexists. split; [reflexivity|].
  now rewrite map_map.
Qed.

Lemma plot_columns_ok (pv : Pivot) (ps : list string) :
  pv <> [] ->
  Forall (fun c => Forall (fun rc => In c (map fst (snd rc))) pv) ps ->
  exists lines,
    plot_columns pv ps = OK lines
    /\ map fst lines = ps
    /\ Forall (fun l => map fst (snd l) = map fst pv) lines.
Proof.
  intros N. induction 1 as [|c ps Hc _ (lines & E & Hf & Hl)]; simpl.
  - exists []. repeat split; constructor.
  - destruct (pivot_column_ok pv c N Hc) as (col & Ec & Hcol).
    rewrite Ec, E. eexists. split; [reflexivity|].
    cbn [map fst]. split; [now rewrite Hf|].
    constructor; assumption.
Qed.

Lemma unstack_index (l : list (string * string * fval)) :
  map fst (unstack l) = unique_sorted (map (fun e => fst (fst e)) l).
Proof. unfold unstack. rewrite map_map. apply map_id. Qed.

Lemma unstack_columns (l : list (string * string * fval)) :
  Forall (fun rc => map fst (snd rc)
                    = unique_sorted (map (fun e => snd (fst e)) l))
    (unstack l).
Proof.
  apply Forall_forall. intros rc I.
  apply (in_map (fun rc => (fst rc, map fst (snd rc)))) in I.
  rewrite unstack_labels in I. apply in_map_iff in I.
  destruct I as (r & E & _). now inversion E.
Qed.

Lemma map_combine_map {A B C} (h : A * B -> C) (f : A -> B) (l : list A) :
  map h (combine l (map f l)) = map (fun a => h (a, f a)) l.
Proof. induction l as [|a l IH]; simpl; congruence. Qed.

Lemma step_products {np} (c : Cell) (s : NB np) :
  c <> C3 -> v_products (step np c s) = v_products s.
Proof.
  intros Hc. destruct c; try contradiction; run_cell_cases;
    repeat (split_match; nb_simpl); congruence.
Qed.

Section RunAll.

Variable np : NumPy.

Lemma exec_products (cs : list Cell) (s : NB np) :
  v_products s = Some products -> v_products (exec np cs s) = Some products.
Proof.
  revert s. induction cs as [|c cs IH]; intros s Hp; [exact Hp|].
  rewrite exec_cons. apply IH.
  destruct (cell_is_C3_or_not c) as [-> | Hc].
  - apply (cell3_df np s).
  - now rewrite step_products.
Qed.

(** The sales by month and product of the generated table, spread into a
    table: twelve months by three products, whatever the sampler draws. *)
Lemma generated_product_monthly :
  exists lines,
    plot_columns
      (unstack
         (map (fun g : string * string * list (Row * string) =>
                 (fst g, of_Z (sumZ (fun re => sales (fst re)) (snd g))))
            (groupby (fun re : Row * string => (snd re, product (fst re)))
               (combine (generated_rows np)
                  (map (fun r => strftime_Ym (date r)) (generated_rows np))))))
      products
    = OK lines
    /\ map fst lines = products
    /\ Forall (fun l => map fst (snd l) = months_2023) lines.
Proof.
  set (groups := groupby (fun re : Row * string => (snd re, product (fst re)))
                   (combine (generated_rows np)
                      (map (fun r => strftime_Ym (date r)) (generated_rows np)))).
  set (pm := map (fun g : string * string * list (Row * string) =>
                    (fst g, of_Z (sumZ (fun re => sales (fst re)) (snd g))))
               groups).
  assert (K : map fst groups
              = unique_sorted
                  (map (fun k => (strftime_Ym (snd k), snd (fst k))) combos)).
  { unfold groups. rewrite groupby_keys_unique_sorted.
    rewrite (map_combine_map
               (fun re : Row * string => (snd re, product (fst re)))).
    cbn [fst snd]. now rewrite generated_month_products. }
  assert (I : unique_sorted (map (fun e => fst (fst e)) pm) = months_2023).
  { unfold pm. rewrite map_map. cbn [fst].
    rewrite <- (map_map fst (fun k : string * string => fst k)), K.
    vm_compute. reflexivity. }
  assert (C : unique_sorted (map (fun e => snd (fst e)) pm) = products).
  { unfold pm. rewrite map_map. cbn [fst].
    rewrite <- (map_map fst (fun k : string * string => snd k)), K.
    vm_compute. reflexivity. }
  destruct (plot_columns_ok (unstack pm) products) as (lines & E & Hf & Hl).
  - intros N. apply (f_equal (map fst)) in N.
    rewrite unstack_index, I in N. discriminate N.
  - apply Forall_forall. intros c Hc.
    eapply Forall_impl; [|apply unstack_columns].
    intros rc Hrc. cbn beta in Hrc. now rewrite Hrc, C.
  - exists lines. split; [exact E|]. split; [exact Hf|].
    eapply Forall_impl; [|exact Hl].
    intros l Hlm. cbn beta in Hlm. now rewrite Hlm, unstack_index, I.
Qed.

(** Right after cell 3, run for the first time or again, cell 20 raises
    [KeyError: 'month'].  Once cell 13 has run on the generated table,
    cell 20 draws one line per product, in the order of [products], each
    over the twelve months of 2023. *)
Theorem monthly_chart_needs_month_column (s : NB np) (cs : list Cell) :
  result np C20 (step np C3 s) = Raise (KeyError "month")
  /\ exists lines,
       result np C20 (step np C13 (exec np (C3 :: cs) s))
       = OK [OPlot (Series "Monthly Sales Trend by Product" lines)]
       /\ map fst lines = products
       /\ Forall (fun l => map fst (snd l) = months_2023) lines.
Proof.
  split.
  - destruct (cell3_df np s) as (D & _).
    unfold result, run_cell, cell20, bind, var, lift_err.
    now rewrite D.
  - destruct (exec_from_cell3 np cs s) as (d & Hd & Hb).
    assert (Hp : v_products (exec np (C3 :: cs) s) = Some products).
    { rewrite exec_cons. apply exec_products. apply (cell3_df np s). }
    assert (D13 : v_df (step np C13 (exec np (C3 :: cs) s))
                  = Some (add_month d)).
    { rewrite step_df by discriminate. now rewrite Hd. }
    assert (P13 : v_products (step np C13 (exec np (C3 :: cs) s))
                  = Some products).
    { rewrite step_products by discriminate. exact Hp. }
    destruct generated_product_monthly as (lines & E & Hf & Hl).
    exists lines. split; [|split; assumption].
    unfold result at 1, run_cell at 1, cell20, bind, var, lift_err, ret.
    rewrite D13. unfold add_month, set_extra, with_extra. cbn [extra body fst snd].
    rewrite P13, Hb, E. reflexivity.
Qed.

End RunAll.

Section RunAllSucceeds.

Variable np : NumPy.




End RunAllSucceeds.

(** ** The entries of the pivot table *)

Lemma mean_of_rows {A} (f : A -> Z) (l : list A) :
  l <> [] ->
  mean f l = Fin (Qred (inject_Z (sumZ f l) / inject_Z (Z.of_nat (List.length l)))).
Proof.
  intros N. unfold mean, fquot, of_Z. rewrite Qeq_bool_inject_Z.
  destruct (Z.eqb_spec (Z.of_nat (List.length l)) 0) as [E|_]; [|reflexivity].
  destruct l; [contradiction | simpl in E; lia].
Qed.

Lemma all_pairs_have_twelve_rows :
  forallb (fun rp =>
             Nat.eqb
               (List.length
                  (filter (fun k => String.eqb (fst (fst k)) (fst rp)
                                    && String.eqb (snd (fst k)) (snd rp))
                     combos))
               12)
    (list_prod regions products) = true.
Proof. vm_compute. reflexivity. Qed.

Section PivotEntries.

Variable np : NumPy.

(** Whatever the sampler draws, every cell of the pivot table of the
    generated table holds a number, none is blank: the entry for a region
    and a product is the sum of the twelve monthly profits over twelve,
    rounded to two decimals. *)
Theorem pivot_entries_are_numbers (s : NB np) (cs : list Cell) :
  exists pv,
    v_pivot_table (step np C12 (exec np (C3 :: cs) s)) = Some pv
    /\ Forall (fun rp =>
                 exists rows,
                   rows = filter (region_product_is (fst rp) (snd rp))
                            (generated_rows np)
                   /\ List.length rows = 12%nat
                   /\ pivot_get pv (fst rp) (snd rp)
                      = Some (round2 (Fin (Qred (inject_Z (sumZ profit rows) / 12)))))
         (list_prod regions products).
Proof.
  destruct (exec_from_cell3 np cs s) as (d & Hd & Hb).
  exists (pivot_round2 (pd_pivot_table (body d))).
  split; [run_cell_cases; now rewrite Hd|].
  rewrite Hb. apply Forall_forall. intros [r p] I. cbn [fst snd].
  eexists. split; [reflexivity|].
  assert (L : List.length (filter (region_product_is r p) (generated_rows np))
              = 12%nat).
  { pose proof all_pairs_have_twelve_rows as T. rewrite forallb_forall in T.
    specialize (T (r, p) I). cbn [fst snd] in T. apply Nat.eqb_eq in T.
    rewrite <- T, <- (generated_rows_keys np).
    apply (filter_length_by_key
             (fun k => String.eqb (fst (fst k)) r && String.eqb (snd (fst k)) p)). }
  split; [exact L|].
  assert (Ir : In r (map region (generated_rows np))
               /\ In p (map product (generated_rows np))).
  { destruct (filter (region_product_is r p) (generated_rows np)) as [|x rest] eqn:F;
      [discriminate L|].
    assert (Ix : In x (filter (region_product_is r p) (generated_rows np)))
      by (rewrite F; now left).
    apply filter_In in Ix. destruct Ix as (Ix & Px).
    unfold region_product_is in Px. apply andb_true_iff in Px.
    destruct Px as (Pr & Pp). apply String.eqb_eq in Pr, Pp. subst r p.
    split; now apply in_map. }
  destruct Ir as (Ir & Ip).
  rewrite pivot_get_round2. unfold pd_pivot_table.
  rewrite pivot_get_unstack, grouped_mean_lookup.
  - cbn [option_map]. rewrite mean_of_rows, L; [reflexivity|].
    intros N. rewrite N in L. discriminate L.
  - rewrite map_map. cbn [fst].
    rewrite <- (map_map fst fst), groupby_keys_unique_sorted.
    apply in_map_iff in Ir. destruct Ir as (x & <- & Ix).
    apply (in_map fst _ (region x, product x)).
    apply unique_sorted_In.
    apply (in_map (fun x => (region x, product x))), Ix.
  - rewrite map_map. cbn [fst].
    rewrite <- (map_map fst snd), groupby_keys_unique_sorted.
    apply in_map_iff in Ip. destruct Ip as (x & <- & Ix).
    apply (in_map snd _ (region x, product x)).
    apply unique_sorted_In.
    apply (in_map (fun x => (region x, product x))), Ix.
Qed.

End PivotEntries.

(** ** Nothing lost in the totals *)

Lemma totals_by_sums {K} `{Key K} (key : Row -> K) (l : list Row) :
  sumZ t_sales (totals_by key l) = sumZ sales l
  /\ sumZ t_cost (totals_by key l) = sumZ cost l
  /\ sumZ t_profit (totals_by key l) = sumZ profit l.
Proof.
  unfold totals_by. rewrite !sumZ_map. cbn [t_sales t_cost t_profit].
  repeat split; apply groupby_sum.
Qed.

Section TotalsFacts.

Variable np : NumPy.

(** The totals by region add up to the totals of the whole table, and so
    do the totals by region and product: no row is left out of a summary
    and none is counted twice. *)
Theorem totals_add_up (s : NB np) (d : DataFrame) :
  v_df s = Some d ->
  exists rs pa,
    v_region_summary (step np C11 s) = Some rs
    /\ v_profit_analysis (step np C25 s) = Some pa
    /\ (sumZ t_sales rs = sumZ sales (body d)
        /\ sumZ t_cost rs = sumZ cost (body d)
        /\ sumZ t_profit rs = sumZ profit (body d))
    /\ (sumZ t_sales pa = sumZ sales (body d)
        /\ sumZ t_cost pa = sumZ cost (body d)
        /\ sumZ t_profit pa = sumZ profit (body d)).
Proof.
  intros Hd. do 2 eexists.
  split; [run_cell_cases; rewrite Hd; reflexivity|].
  split; [run_cell_cases; rewrite Hd; reflexivity|].
  split; [apply totals_by_sums|].
  rewrite !(sumZ_perm _ _ _ (sort_by_perm _ _)). apply totals_by_sums.
Qed.

End TotalsFacts.

(** ** The further properties at work on the sample instance *)

Lemma selection_keeps_rows_aligned_witness :
  with_extra "month"
    (frame_filter (fun r => String.eqb (region r) "North") (add_month Sample.df0))
  = OK (filter (fun re => String.eqb (region (fst re)) "North")
          (combine (body Sample.df0) (Sample.extra_of (add_month Sample.df0))))
  /\ with_extra "month" (frame_head 5 (add_month Sample.df0))
     = OK (firstn 5
             (combine (body Sample.df0) (Sample.extra_of (add_month Sample.df0)))).
Proof.
  apply (selection_keeps_rows_aligned "month"
           (fun r => String.eqb (region r) "North") 5 (add_month Sample.df0)).
  vm_compute. reflexivity.
Defined.

Lemma top_profit_largest_witness :
  exists top rest,
    result Sample.numpy C10 Sample.generated
    = OK [OTop (map (fun r => (date r, region r, product r, profit r)) top)]
    /\ step Sample.numpy C10 Sample.generated = Sample.generated
    /\ Permutation (top ++ rest) (body Sample.df0)
    /\ List.length top = Nat.min 10 (List.length (body Sample.df0))
    /\ StronglySorted (fun a b => profit b <= profit a) top
    /\ Forall (fun a => Forall (fun b => profit b <= profit a) rest) top.
Proof.
  apply (top_profit_largest Sample.numpy Sample.generated Sample.df0).
  vm_compute. reflexivity.
Defined.

Lemma profit_analysis_sorted_witness :
  exists pa,
    v_profit_analysis (step Sample.numpy C25 Sample.generated) = Some pa
    /\ result Sample.numpy C25 Sample.generated = OK [OAnalysis (firstn 5 pa)]
    /\ Permutation pa
         (totals_by (fun r => (region r, product r)) (body Sample.df0))
    /\ StronglySorted
         (fun a b => desc_leb (profit_margin a) (profit_margin b) = true) pa.
Proof.
  apply (profit_analysis_sorted Sample.numpy Sample.generated Sample.df0).
  vm_compute. reflexivity.
Defined.

Lemma monthly_sales_partition_witness :
  exists ms,
    v_monthly_sales (step Sample.numpy C13 Sample.generated)
    = Some {| body := ms; extra := None |}
    /\ result Sample.numpy C13 Sample.generated = OK [OMonthly ms]
    /\ NoDup (map m_month ms)
    /\ (forall k, In k (map m_month ms) <-> In k (map month_of (body Sample.df0)))
    /\ Forall (fun m =>
                 m_sales m
                 = sumZ sales
                     (filter (fun r => String.eqb (month_of r) (m_month m))
                        (body Sample.df0))
                 /\ m_profit m
                    = sumZ profit
                        (filter (fun r => String.eqb (month_of r) (m_month m))
                           (body Sample.df0)))
         ms
    /\ sumZ m_sales ms = sumZ sales (body Sample.df0)
    /\ sumZ m_profit ms = sumZ profit (body Sample.df0).
Proof.
  apply (monthly_sales_partition Sample.numpy Sample.generated Sample.df0).
  vm_compute. reflexivity.
Defined.

Lemma unbound_variable_raises_witness :
  result Sample.numpy C20 Sample.fresh = Raise (NameError "df")
  /\ step Sample.numpy C20 Sample.fresh = Sample.fresh.
Proof.
  apply (unbound_variable_raises Sample.numpy C20 Sample.fresh Vdf);
    reflexivity.
Defined.

Lemma cell_writes_only_what_it_assigns_witness :
  same_value Vregion_summary Sample.generated
    (step Sample.numpy C13 Sample.generated).
Proof.
  apply (cell_writes_only_what_it_assigns Sample.numpy C13 Sample.generated
           Vregion_summary).
  simpl. intuition discriminate.
Defined.

Lemma best_and_worst_per_region_witness :
  exists best worst,
    result Sample.numpy C29 Sample.analysed = OK [OPerformers (performers best)]
    /\ v_worst_products (step Sample.numpy C29 Sample.analysed) = Some worst
    /\ map (fun t => fst (t_key t)) best
       = unique_sorted (map (fun t => fst (t_key t)) Sample.analysis)
    /\ map (fun t => fst (t_key t)) worst
       = unique_sorted (map (fun t => fst (t_key t)) Sample.analysis)
    /\ Forall (fun t =>
                 In t Sample.analysis
                 /\ Forall (fun u => fst (t_key u) = fst (t_key t) ->
                                     t_profit u <= t_profit t) Sample.analysis)
         best
    /\ Forall (fun t =>
                 In t Sample.analysis
                 /\ Forall (fun u => fst (t_key u) = fst (t_key t) ->
                                     t_profit t <= t_profit u) Sample.analysis)
         worst.
Proof.
  apply (best_and_worst_per_region Sample.numpy Sample.analysed Sample.analysis).
  vm_compute. reflexivity.
Defined.



Lemma month_key_identifies_month_witness :
  strftime_Ym (month_end 2023 1) = strftime_Ym (month_end 2023 2)
  <-> year (month_end 2023 1) = year (month_end 2023 2)
      /\ month (month_end 2023 1) = month (month_end 2023 2).
Proof.
  apply (month_key_identifies_month (month_end 2023 1) (month_end 2023 2));
    simpl; lia.
Defined.

Lemma totals_add_up_witness :
  exists rs pa,
    v_region_summary (step Sample.numpy C11 Sample.generated) = Some rs
    /\ v_profit_analysis (step Sample.numpy C25 Sample.generated) = Some pa
    /\ (sumZ t_sales rs = sumZ sales (body Sample.df0)
        /\ sumZ t_cost rs = sumZ cost (body Sample.df0)
        /\ sumZ t_profit rs = sumZ profit (body Sample.df0))
    /\ (sumZ t_sales pa = sumZ sales (body Sample.df0)
        /\ sumZ t_cost pa = sumZ cost (body Sample.df0)
        /\ sumZ t_profit pa = sumZ profit (body Sample.df0)).
Proof.
  apply (totals_add_up Sample.numpy Sample.generated Sample.df0).
  vm_compute. reflexivity.
Defined.
